(** * Governance kernel: a shallow embedding of the verification pipeline

    The Python package [governance_kernel] (state encoder, six invariants,
    verifier, handler registry, audit logger and the orchestrating kernel)
    is embedded as Rocq functions; the properties of its specification are
    then stated and proved about these functions.

    Conventions of the embedding:
    - Python values are the JSON-like values [pyval]: [None], booleans,
      integers, strings, lists and dictionaries with string keys (the
      audit logger serialises contexts and actions with [json.dumps], so
      these are the values a logged verification can carry).  Floating
      point numbers are not part of the model.
    - A Python [str] is a Rocq [string] of 8-bit characters; [lower()] acts
      on the ASCII letters, the only letters the keywords of the program
      contain.
    - A dictionary is an association list in insertion order, without
      duplicate keys.
    - A Python exception is the [Err] branch of [result]. *)

From Stdlib Require Import ZArith Ascii String List Bool Lia.
From stdpp Require Import base option list strings pretty gmap.

Local Open Scope string_scope.
Local Open Scope Z_scope.

Set Warnings "-register-all".

(** ** Exceptions *)

Inductive exn : Type :=
| AttributeError
| TypeError
| ValueError
| KeyError
| IndexError.

Inductive result (A : Type) : Type :=
| Ok (a : A)
| Err (e : exn).
Arguments Ok {A} a.
Arguments Err {A} e.

#[global] Instance result_ret : MRet result := λ A a, Ok a.

#[global] Instance result_bind : MBind result := λ A B f m,
  match m with
  | Ok a => f a
  | Err e => Err e
  end.

Definition returns {A : Type} (m : result A) : Prop := ∃ a, m = Ok a.

(** ** Python values *)

Module Py.

Inductive pyval : Type :=
| VNone
| VBool (b : bool)
| VInt (n : Z)
| VStr (s : string)
| VList (l : list pyval)
| VDict (d : list (string * pyval)).

(** A dictionary with string keys, in insertion order. *)
Abbreviation dict := (list (string * pyval)).

Section Assoc.
Context {A : Type}.

(** [d.get(k)] as an option; [d[k]] raises [KeyError] where it is [None]. *)
Fixpoint dict_get (k : string) (d : list (string * A)) : option A :=
  match d with
  | [] => None
  | (k', v) :: d' => if String.eqb k k' then Some v else dict_get k d'
  end.

(** [d.get(k, default)] *)
Definition get_or (d : list (string * A)) (k : string) (default : A) : A :=
  match dict_get k d with
  | Some v => v
  | None => default
  end.

(** [k in d] *)
Definition dict_mem (k : string) (d : list (string * A)) : bool :=
  match dict_get k d with
  | Some _ => true
  | None => false
  end.

(** [d[k] = v]: an existing key keeps its place, a new key goes last. *)
Fixpoint dict_set (k : string) (v : A) (d : list (string * A)) : list (string * A) :=
  match d with
  | [] => [(k, v)]
  | (k', v') :: d' =>
      if String.eqb k k' then (k', v) :: d' else (k', v') :: dict_set k v d'
  end.

Definition keys (d : list (string * A)) : list string := fst <$> d.
End Assoc.

(** Truth value of an object, as tested by [if], [and], [or], [not], [any]. *)
Definition truthy (v : pyval) : bool :=
  match v with
  | VNone => false
  | VBool b => b
  | VInt n => negb (n =? 0)
  | VStr s => negb (String.eqb s "")
  | VList l => match l with [] => false | _ => true end
  | VDict d => match d with [] => false | _ => true end
  end.

(** [a and b], [a or b]: the operand that decides is the value. *)
Definition py_and (a b : pyval) : pyval := if truthy a then b else a.
Definition py_or (a b : pyval) : pyval := if truthy a then a else b.

(** [a == b].  [bool] is a subtype of [int]; dictionaries compare as maps. *)
Fixpoint py_eq (a b : pyval) {struct a} : bool :=
  match a, b with
  | VNone, VNone => true
  | VBool x, VBool y => Bool.eqb x y
  | VBool x, VInt n => n =? Z.b2z x
  | VInt n, VBool x => n =? Z.b2z x
  | VInt m, VInt n => m =? n
  | VStr s, VStr t => String.eqb s t
  | VList l, VList r =>
      (fix go (l r : list pyval) {struct l} : bool :=
         match l, r with
         | [], [] => true
         | x :: l', y :: r' => py_eq x y && go l' r'
         | _, _ => false
         end) l r
  | VDict d, VDict e =>
      Nat.eqb (length d) (length e) &&
      (fix go (d : list (string * pyval)) {struct d} : bool :=
         match d with
         | [] => true
         | (k, v) :: d' =>
             match dict_get k e with
             | Some w => py_eq v w
             | None => false
             end && go d'
         end) d
  | _, _ => false
  end.

(** Objects that can be a dictionary key or a set element. *)
Definition hashable (v : pyval) : bool :=
  match v with
  | VList _ | VDict _ => false
  | _ => true
  end.

(** [x in l] for a list of objects (by [==]). *)
Definition py_in (x : pyval) (l : list pyval) : bool := existsb (py_eq x) l.

(** ** Strings *)

Definition lower_char (c : ascii) : ascii :=
  let n := nat_of_ascii c in
  if (Nat.leb 65 n && Nat.leb n 90)%bool then ascii_of_nat (n + 32) else c.

(** [s.lower()] *)
Fixpoint lower (s : string) : string :=
  match s with
  | EmptyString => EmptyString
  | String c s' => String (lower_char c) (lower s')
  end.

(** [s.startswith(p)] *)
Definition startswith (s p : string) : bool := String.prefix p s.

(** [sub in s] for strings. *)
Fixpoint contains (sub s : string) : bool :=
  String.prefix sub s ||
  match s with
  | EmptyString => false
  | String _ s' => contains sub s'
  end.

(** [s.split(sep)[-1]]: what follows the last separator, or all of [s]. *)
Fixpoint last_segment (sep : ascii) (s : string) : string :=
  match s with
  | EmptyString => EmptyString
  | String c s' =>
      if contains (String sep EmptyString) s' then last_segment sep s'
      else if Ascii.eqb c sep then s'
      else s
  end.

(** The characters of a string, as iterating over it yields them. *)
Fixpoint chars (s : string) : list string :=
  match s with
  | EmptyString => []
  | String c s' => String c EmptyString :: chars s'
  end.

(** White space skipped by [int()] around the digits. *)
Definition is_space (c : ascii) : bool :=
  let n := nat_of_ascii c in
  (Nat.leb 9 n && Nat.leb n 13) || (Nat.leb 28 n && Nat.leb n 32).

Fixpoint lstrip (s : string) : string :=
  match s with
  | EmptyString => EmptyString
  | String c s' => if is_space c then lstrip s' else s
  end.

Fixpoint rstrip (s : string) : string :=
  match s with
  | EmptyString => EmptyString
  | String c s' =>
      match rstrip s' with
      | EmptyString => if is_space c then EmptyString else String c EmptyString
      | r => String c r
      end
  end.

Definition digit_value (c : ascii) : option Z :=
  let n := nat_of_ascii c in
  if (Nat.leb 48 n && Nat.leb n 57)%bool then Some (Z.of_nat (n - 48)) else None.

Fixpoint digits_value (acc : Z) (s : string) : option Z :=
  match s with
  | EmptyString => Some acc
  | String c s' =>
      match digit_value c with
      | Some d => digits_value (10 * acc + d) s'
      | None => None
      end
  end.

Definition unsigned_value (s : string) : option Z :=
  match s with
  | EmptyString => None
  | _ => digits_value 0 s
  end.

(** [int(s)] for a string in base ten: optional white space, an optional
    sign, then decimal digits; anything else raises [ValueError].  (The
    digit-group separator of Python literals never reaches [int] in this
    program, which only parses what follows the last underscore.) *)
Definition py_int (s : string) : result Z :=
  let t := rstrip (lstrip s) in
  let parsed :=
    match t with
    | String "+"%char r => unsigned_value r
    | String "-"%char r => Z.opp <$> unsigned_value r
    | _ => unsigned_value t
    end in
  match parsed with
  | Some n => Ok n
  | None => Err ValueError
  end.

(** [v.startswith(p)]: only strings have the method. *)
Definition py_startswith (v : pyval) (p : string) : result bool :=
  match v with
  | VStr s => Ok (startswith s p)
  | _ => Err AttributeError
  end.

(** [v.lower()] *)
Definition py_lower (v : pyval) : result string :=
  match v with
  | VStr s => Ok (lower s)
  | _ => Err AttributeError
  end.

(** [v > limit] for an integer [limit]. *)
Definition py_gt_int (v : pyval) (limit : Z) : result bool :=
  match v with
  | VInt n => Ok (limit <? n)
  | VBool b => Ok (limit <? Z.b2z b)
  | _ => Err TypeError
  end.

(** The objects [for x in v] yields; [None], booleans and integers are not
    iterable. *)
Definition py_iter (v : pyval) : result (list pyval) :=
  match v with
  | VList l => Ok l
  | VStr s => Ok (VStr <$> chars s)
  | VDict d => Ok (VStr <$> keys d)
  | _ => Err TypeError
  end.

(** [set(v)]: the distinct elements of an iterable, which must be hashable. *)
Fixpoint distinct (l : list pyval) : list pyval :=
  match l with
  | [] => []
  | x :: l' => let r := distinct l' in if py_in x r then r else x :: r
  end.

Definition py_set (v : pyval) : result (list pyval) :=
  l ← py_iter v;
  if forallb hashable l then Ok (distinct l) else Err TypeError.

(** [s & t] on sets. *)
Definition set_and (s t : list pyval) : list pyval :=
  filter (λ x, py_in x t = true) s.

(** [v[k]] for a string key: a missing key raises [KeyError], an object
    that is not a dictionary raises [TypeError]. *)
Definition py_getitem (v : pyval) (k : string) : result pyval :=
  match v with
  | VDict d =>
      match dict_get k d with
      | Some x => Ok x
      | None => Err KeyError
      end
  | _ => Err TypeError
  end.

(** A list comprehension [[x for x in l if keep(x)]] whose test can raise. *)
Fixpoint filter_r {A : Type} (keep : A → result bool) (l : list A)
  : result (list A) :=
  match l with
  | [] => Ok []
  | x :: l' =>
      k ← keep x;
      rest ← filter_r keep l';
      Ok (if (k : bool) then x :: rest else rest)
  end.

End Py.

(** ** core/state_encoder.py *)

Module StateEncoder.
Import Py.

Definition binding_types : list string :=
  ["execute"; "commit"; "sign"; "approve"; "transfer"; "deploy"].

(** Determine if action creates binding commitment. *)
Definition _is_binding_action (action : dict) : result pyval :=
  let action_type := get_or action "type" (VStr "") in
  lowered ← py_lower action_type;
  let is_binding_type := existsb (λ bt, contains bt lowered) binding_types in
  let explicitly_binding := get_or action "is_binding" (VBool false) in
  Ok (py_or (VBool is_binding_type) explicitly_binding).

(** [v is not None] *)
Definition is_not_None (v : pyval) : bool :=
  match v with
  | VNone => false
  | _ => true
  end.

(** Check if human is in authority chain. *)
Definition _has_human_authority (context : dict) : result pyval :=
  has_human_bearer ←
    py_startswith (get_or context "consequence_bearer" (VStr "")) "human";
  has_human_decision_maker ←
    py_startswith (get_or context "decision_maker" (VStr "")) "human";
  let explicit_human_auth := get_or context "human_in_authority_chain" (VBool false) in
  let has_human_signature := is_not_None (get_or context "human_signature" VNone) in
  Ok (VBool (existsb truthy
               [VBool has_human_bearer;
                VBool has_human_decision_maker;
                explicit_human_auth;
                VBool has_human_signature])).

(** Check if action violates a specific constraint. *)
Definition _action_violates_constraint (action : dict) (constraint : pyval)
  : result pyval :=
  if py_eq constraint (VStr "no_residential_hazmat") then
    Ok (py_and (get_or action "passes_through_residential" (VBool false))
               (get_or action "cargo_is_hazmat" (VBool false)))
  else
    match constraint with
    | VStr name =>
        if startswith name "time_limit_" then
          limit ← py_int (last_segment "_"%char name);
          let action_time := get_or action "estimated_time_minutes" (VInt 0) in
          exceeded ← py_gt_int action_time limit;
          Ok (VBool exceeded)
        else
          Ok (get_or action ("violates_" +:+ name) (VBool false))
    | _ => Err AttributeError (* [constraint.startswith] on a non-string *)
    end.

(** The loop over the hard constraints: each violated one is appended. *)
Fixpoint scan_constraints (action : dict) (hard_constraints violated : list pyval)
  : result (list pyval) :=
  match hard_constraints with
  | [] => Ok violated
  | constraint :: rest =>
      v ← _action_violates_constraint action constraint;
      scan_constraints action rest
        (if truthy v then violated ++ [constraint] else violated)
  end.

(** Check which hard constraints would be violated by action. *)
Definition _check_constraint_violations (context action : dict)
  : result (list pyval) :=
  violated ←
    (if dict_mem "violates_constraints" action
     then py_iter (get_or action "violates_constraints" VNone)
     else Ok []);
  hard_constraints ← py_iter (get_or context "hard_constraints" (VList []));
  scan_constraints action hard_constraints violated.

(** Encode context + action into state variables. *)
Definition encode (context action : dict) : result dict :=
  let authority_level := get_or context "authority_level" (VStr "none") in
  let requires_authority := get_or action "requires_authority" (VStr "none") in
  is_binding_action ← _is_binding_action action;
  human_in_authority_chain ← _has_human_authority context;
  let consequence_bearer := get_or context "consequence_bearer" VNone in
  let makes_decision := get_or action "makes_decision" (VBool false) in
  let hard_constraints := get_or context "hard_constraints" (VList []) in
  violated_constraints ← _check_constraint_violations context action;
  let makes_interpretation := get_or action "makes_interpretation" (VBool false) in
  let interpretation_authority :=
    get_or context "interpretation_authority" (VBool false) in
  let affects_group :=
    py_or (get_or action "affects_group" VNone)
          (get_or context "affects_group" VNone) in
  let decision_maker := get_or context "decision_maker" VNone in
  let delegated_authority_from_affected :=
    get_or context "delegated_authority_from_affected" (VBool false) in
  Ok [("authority_level", authority_level);
      ("requires_authority", requires_authority);
      ("is_binding_action", is_binding_action);
      ("human_in_authority_chain", human_in_authority_chain);
      ("consequence_bearer", consequence_bearer);
      ("makes_decision", makes_decision);
      ("hard_constraints", hard_constraints);
      ("violated_constraints", VList violated_constraints);
      ("makes_interpretation", makes_interpretation);
      ("interpretation_authority", interpretation_authority);
      ("affects_group", affects_group);
      ("decision_maker", decision_maker);
      ("delegated_authority_from_affected", delegated_authority_from_affected)].

End StateEncoder.

(** ** core/invariants.py *)

Module Invariants.
Import Py.

(** An invariant object: its name, its description and its [check]. *)
Record Invariant : Type := {
  name : string;
  description : string;
  check : dict → result pyval;
}.

(** Authority hierarchy. *)
Definition authority_levels : list (string * Z) :=
  [("none", 0); ("advisory", 1); ("binding", 2); ("autonomous", 3)].

(** [authority_levels.get(v, 0)]: an unhashable key raises, a key that is
    not in the table has rank 0. *)
Definition authority_rank (v : pyval) : result Z :=
  match v with
  | VStr s => Ok (get_or authority_levels s 0)
  | VList _ | VDict _ => Err TypeError
  | _ => Ok 0
  end.

Definition AIT1_check (state : dict) : result pyval :=
  let system_authority := get_or state "authority_level" (VStr "none") in
  let required_authority := get_or state "requires_authority" (VStr "none") in
  granted ← authority_rank system_authority;
  required ← authority_rank required_authority;
  Ok (VBool (required <=? granted)).

Definition BG1_check (state : dict) : result pyval :=
  let is_binding := get_or state "is_binding_action" (VBool false) in
  let has_human_authority := get_or state "human_in_authority_chain" (VBool false) in
  if truthy is_binding then Ok has_human_authority else Ok (VBool true).

Definition GI1_check (state : dict) : result pyval :=
  let hard_constraints := get_or state "hard_constraints" (VList []) in
  let violated_constraints := get_or state "violated_constraints" (VList []) in
  hard ← py_set hard_constraints;
  violated ← py_set violated_constraints;
  Ok (VBool (Nat.eqb (length (set_and hard violated)) 0)).

Definition MAP1_check (state : dict) : result pyval :=
  let makes_interpretation := get_or state "makes_interpretation" (VBool false) in
  let has_interpretation_authority :=
    get_or state "interpretation_authority" (VBool false) in
  if truthy makes_interpretation then Ok has_interpretation_authority
  else Ok (VBool true).

Definition CMP1_check (state : dict) : result pyval :=
  let makes_decision := get_or state "makes_decision" (VBool false) in
  let has_consequence_bearer :=
    StateEncoder.is_not_None (get_or state "consequence_bearer" VNone) in
  if truthy makes_decision then Ok (VBool has_consequence_bearer)
  else Ok (VBool true).

Definition EXP1_check (state : dict) : result pyval :=
  let affects_group := get_or state "affects_group" VNone in
  let decision_maker := get_or state "decision_maker" VNone in
  if truthy (py_and affects_group decision_maker) then
    Ok (py_or (VBool (py_eq affects_group decision_maker))
              (get_or state "delegated_authority_from_affected" (VBool false)))
  else Ok (VBool true).

Definition AIT1_Invariant : Invariant :=
  {| name := "AIT-1";
     description := "Authority Invariance - capability does not grant authority";
     check := AIT1_check |}.

Definition BG1_Invariant : Invariant :=
  {| name := "BG-1";
     description := "Boundary Governance - only humans can bind reality";
     check := BG1_check |}.

Definition GI1_Invariant : Invariant :=
  {| name := "GI-1";
     description := "Gauge Invariance - optimization preserves constraints";
     check := GI1_check |}.

Definition MAP1_Invariant : Invariant :=
  {| name := "MAP-1";
     description := "Meaning-Authority Pairing - meaning collapse needs authority";
     check := MAP1_check |}.

Definition CMP1_Invariant : Invariant :=
  {| name := "CMP-1";
     description := "Consequence-Memory Pairing - decisions trace to bearers";
     check := CMP1_check |}.

Definition EXP1_Invariant : Invariant :=
  {| name := "EXP-1";
     description := "Experience-Authority Coupling - experiencers hold authority";
     check := EXP1_check |}.

End Invariants.

(** ** core/verifier.py *)

Module Verifier.
Import Py Invariants.

(** Violated invariant names, appended to [violations] in list order. *)
Fixpoint check_from (state : dict) (invariants : list Invariant)
    (violations : list string) : result (list string) :=
  match invariants with
  | [] => Ok violations
  | invariant :: rest =>
      holds ← check invariant state;
      check_from state rest
        (if truthy holds then violations else violations ++ [name invariant])
  end.

(** Check if state satisfies all invariants. *)
Definition check (state : dict) (invariants : list Invariant)
  : result (list string) :=
  check_from state invariants [].

(** Check if state satisfies a single invariant. *)
Definition check_single (state : dict) (invariant : Invariant) : result pyval :=
  Invariants.check invariant state.

End Verifier.

(** ** Built-ins left abstract

    Library functions of the Python runtime that the program calls and
    whose results it only stores or compares. *)
Class Builtins : Type := {
  (** [str(v)], as an f-string renders [v] *)
  py_str : Py.pyval → string;
  (** [json.dumps(v, sort_keys=True)] *)
  json_dumps_sorted : Py.pyval → string;
  (** [hashlib.sha256(s.encode()).hexdigest()] *)
  sha256_hexdigest : string → string;
}.

(** The [datetime] objects of the standard library, as [get_logs] uses
    them: parsing of an ISO text, and the comparison [a <= b] (which raises
    between a naive and an aware datetime). *)
Class Datetimes : Type := {
  datetime : Type;
  fromisoformat : string → result datetime;
  datetime_le : datetime → datetime → result bool;
}.

(** ** handlers/registry.py *)

Module HandlerRegistry.
Import Py.

Section Handlers.
Context `{Builtins}.

Definition handler : Type := dict → dict → list string → dict.

Definition _handle_ait1 : handler := λ context action violations,
  let system_auth := get_or context "authority_level" (VStr "none") in
  let required_auth := get_or action "requires_authority" (VStr "unknown") in
  [("action", VStr "return_to_authority");
   ("reason", VStr ("Action requires " +:+ py_str required_auth +:+
                    " authority, system has " +:+ py_str system_auth));
   ("required_authority_level", required_auth);
   ("current_authority_level", system_auth);
   ("suggested_action", VStr "Escalate to appropriate authority level")].

Definition _handle_bg1 : handler := λ context action violations,
  [("action", VStr "require_human_authority");
   ("reason", VStr "Binding action requires human in authority chain");
   ("suggested_action",
      VStr "Obtain explicit human authorization before proceeding");
   ("binding_action_type", get_or action "type" VNone)].

Definition _handle_gi1 : handler := λ context action violations,
  let violated_constraints := get_or context "violated_constraints" (VList []) in
  [("action", VStr "respect_hard_constraints");
   ("reason",
      VStr "Action violates hard constraints that cannot be optimized away");
   ("violated_constraints", violated_constraints);
   ("suggested_action", VStr "Find alternative that satisfies all constraints")].

Definition _handle_map1 : handler := λ context action violations,
  [("action", VStr "obtain_interpretation_authority");
   ("reason", VStr "Interpreting ambiguous meaning requires explicit authority");
   ("suggested_action",
      VStr "Escalate interpretation to authorized decision-maker")].

Definition _handle_cmp1 : handler := λ context action violations,
  [("action", VStr "identify_consequence_bearer");
   ("reason", VStr "Decision must trace to entity that bears consequences");
   ("suggested_action",
      VStr "Explicitly identify who bears consequences of this decision")].

Definition _handle_exp1 : handler := λ context action violations,
  let affects := get_or context "affects_group" (VStr "unknown") in
  [("action", VStr "delegate_to_affected");
   ("reason", VStr "Those who experience consequences must hold authority");
   ("affected_group", affects);
   ("suggested_action", VStr ("Obtain authorization from " +:+ py_str affects))].

(** Default handler for unknown violations. *)
Definition _handle_default : handler := λ context action violations,
  [("action", VStr "block");
   ("reason", VStr ("Unknown invariant violations: " +:+
                    py_str (VList (VStr <$> violations))));
   ("suggested_action", VStr "Review governance requirements")].

(** Map from invariant name to handler function. *)
Definition handlers : list (string * handler) :=
  [("AIT-1", _handle_ait1);
   ("BG-1", _handle_bg1);
   ("GI-1", _handle_gi1);
   ("MAP-1", _handle_map1);
   ("CMP-1", _handle_cmp1);
   ("EXP-1", _handle_exp1)].

Definition priority_order : list string :=
  ["BG-1"; "GI-1"; "CMP-1"; "AIT-1"; "EXP-1"; "MAP-1"].

(** [name in violations] *)
Definition occurs (name : string) (violations : list string) : bool :=
  existsb (String.eqb name) violations.

(** The loop over the priority order: the first name that occurs. *)
Fixpoint first_occurring (order violations : list string) : option string :=
  match order with
  | [] => None
  | invariant :: rest =>
      if occurs invariant violations then Some invariant
      else first_occurring rest violations
  end.

(** Prioritize which violation to handle first. *)
Definition _prioritize_violations (violations : list string) : result string :=
  match first_occurring priority_order violations with
  | Some invariant => Ok invariant
  | None =>
      match violations with
      | first :: _ => Ok first
      | [] => Err IndexError
      end
  end.

(** Determine remediation for violations. *)
Definition handle (violations : list string) (context action : dict)
  : result dict :=
  match violations with
  | [] => Ok [("action", VStr "allow")]
  | _ =>
      primary_violation ← _prioritize_violations violations;
      let handler := get_or handlers primary_violation _handle_default in
      Ok (handler context action violations)
  end.
End Handlers.

End HandlerRegistry.

(** ** The record [VerificationResult] of core/kernel.py *)

Module Result.
Import Py.

(** [timestamp] is the reading of the clock; [latency_us] is the measured
    latency, carried as the value the audit entry stores. *)
Record VerificationResult : Type := {
  allowed : bool;
  violations : list string;
  remediation : option dict;
  audit_id : option string;
  timestamp : option string;
  latency_us : pyval;
}.

Definition with_audit_id (r : VerificationResult) (id : string)
  : VerificationResult :=
  {| allowed := allowed r;
     violations := violations r;
     remediation := remediation r;
     audit_id := Some id;
     timestamp := timestamp r;
     latency_us := latency_us r |}.

End Result.

(** ** utils/logger.py *)

Module AuditLogger.
Import Py Result.

(** The logger: its entries in append order and the hash of the last one
    ([None] before the first).  Appending the entry to [log_file], when one
    is configured, is an effect outside this state; its failure is caught
    and changes nothing here. *)
Record t : Type := {
  log_file : option string;
  logs : list dict;
  previous_hash : pyval;
}.

Definition init (log_file : option string) : t :=
  {| log_file := log_file; logs := []; previous_hash := VNone |}.

Definition sensitive (key : string) : bool :=
  contains "password" (lower key) || contains "secret" (lower key).

(** Sanitize data for logging. *)
Definition _sanitize (data : dict) : dict :=
  fold_left
    (λ sanitized '(key, value),
       if sensitive key then dict_set key (VStr "[REDACTED]") sanitized
       else dict_set key value sanitized)
    data [].

(** [None] for an absent optional dictionary. *)
Definition of_optional (o : option dict) : pyval :=
  match o with
  | Some d => VDict d
  | None => VNone
  end.

Section Logger.
Context `{Builtins}.

(** Calculate tamper-evident hash of log entry. *)
Definition _calculate_hash (log_entry : dict) : string :=
  let canonical :=
    json_dumps_sorted
      (VDict (filter (λ kv, negb (String.eqb kv.1 "hash") = true) log_entry)) in
  sha256_hexdigest canonical.

(** Log a verification decision.  [uuid] is the fresh [uuid4()] and [now]
    the reading [datetime.utcnow().isoformat()] of this call. *)
Definition log_verification (self : t) (context action : dict)
    (result : VerificationResult) (metadata : option dict)
    (uuid now : string) : t * string :=
  let audit_id := uuid in
  let log_entry : dict :=
    [("audit_id", VStr audit_id);
     ("timestamp", VStr now);
     ("context", VDict (_sanitize context));
     ("action", VDict (_sanitize action));
     ("result",
        VDict [("allowed", VBool (allowed result));
               ("violations", VList (VStr <$> violations result));
               ("remediation", of_optional (remediation result));
               ("latency_us", latency_us result)]);
     ("metadata", py_or (of_optional metadata) (VDict []));
     ("previous_hash", previous_hash self)] in
  let hash := _calculate_hash log_entry in
  let log_entry := dict_set "hash" (VStr hash) log_entry in
  ({| log_file := log_file self;
      logs := logs self ++ [log_entry];
      previous_hash := VStr hash |},
   audit_id).

(** The loop of [verify_chain], from a given expected previous hash. *)
Fixpoint verify_chain_from (entries : list dict) (previous_hash : pyval)
  : result bool :=
  match entries with
  | [] => Ok true
  | entry :: rest =>
      match dict_get "previous_hash" entry with
      | None => Err KeyError
      | Some recorded =>
          if negb (py_eq recorded previous_hash) then Ok false
          else
            let calculated_hash := _calculate_hash entry in
            match dict_get "hash" entry with
            | None => Err KeyError
            | Some stored =>
                if negb (py_eq (VStr calculated_hash) stored) then Ok false
                else verify_chain_from rest stored
            end
      end
  end.

(** Verify integrity of audit log chain. *)
Definition verify_chain (self : t) : result bool :=
  verify_chain_from (logs self) VNone.
End Logger.

Section Retrieval.
Context `{Datetimes}.

(** [datetime.fromisoformat(log['timestamp'])] *)
Definition entry_time (log : dict) : result datetime :=
  stamp ← py_getitem (VDict log) "timestamp";
  match stamp with
  | VStr text => fromisoformat text
  | _ => Err TypeError
  end.

(** [log['result']['allowed']] *)
Definition entry_allowed (log : dict) : result pyval :=
  outcome ← py_getitem (VDict log) "result";
  py_getitem outcome "allowed".

(** Retrieve audit logs with optional filtering. *)
Definition get_logs (self : t) (start_time end_time : option datetime)
    (allowed_only blocked_only : bool) : result (list dict) :=
  let filtered := logs self in
  filtered ←
    match start_time with
    | Some start =>
        filter_r (λ log, at_ ← entry_time log; datetime_le start at_) filtered
    | None => Ok filtered
    end;
  filtered ←
    match end_time with
    | Some end_ =>
        filter_r (λ log, at_ ← entry_time log; datetime_le at_ end_) filtered
    | None => Ok filtered
    end;
  filtered ←
    (if allowed_only
     then filter_r (λ log, a ← entry_allowed log; Ok (truthy a)) filtered
     else Ok filtered);
  if blocked_only
  then filter_r (λ log, a ← entry_allowed log; Ok (negb (truthy a))) filtered
  else Ok filtered.
End Retrieval.

End AuditLogger.

(** ** core/kernel.py *)

Module GovernanceKernel.
Import Py Invariants Result.

(** The statistics counters ([allowed_count] is the counter 'allowed').  The
    running average of the latency is a floating point figure and is not
    modelled. *)
Record Stats : Type := {
  total_verifications : nat;
  allowed_count : nat;
  blocked : nat;
  violations_by_invariant : gmap string nat;
}.

Record t : Type := {
  invariants : list Invariant;
  strict_mode : bool;
  enable_audit : bool;
  audit_logger : option AuditLogger.t;
  stats : Stats;
}.

(** What one call of [verify] reads from outside the program: the fresh
    identifier, the two readings of the clock and the measured latency. *)
Record Env : Type := {
  uuid4 : string;
  utcnow_result : string;
  utcnow_log : string;
  latency : pyval;
}.

(** The conflict descriptor ([conflict_remediation] is its field
    'remediation').  [conflicting_invariants] is [list(s)] for a set [s], an
    enumeration in no specified order: the set itself here. *)
Record Conflict : Type := {
  type : string;
  message : string;
  conflicting_invariants : gset string;
  attempted_actions : nat;
  conflict_remediation : string;
  escalation_priority : string;
}.

(** Return the default set of 6 governance invariants. *)
Definition _default_invariants : list Invariant :=
  [AIT1_Invariant; BG1_Invariant; GI1_Invariant;
   MAP1_Invariant; CMP1_Invariant; EXP1_Invariant].

(** Initialize violation counters for each invariant. *)
Definition zero_counters (invs : list Invariant) (counters : gmap string nat)
  : gmap string nat :=
  fold_left (λ m inv, <[name inv := 0%nat]> m) invs counters.

Definition init (invariants : option (list Invariant))
    (enable_audit strict_mode : bool) : t :=
  let invs :=
    match invariants with
    | Some (i :: l) => i :: l
    | _ => _default_invariants
    end in
  {| invariants := invs;
     strict_mode := strict_mode;
     enable_audit := enable_audit;
     audit_logger := if enable_audit then Some (AuditLogger.init None) else None;
     stats := {| total_verifications := 0;
                 allowed_count := 0;
                 blocked := 0;
                 violations_by_invariant := zero_counters invs ∅ |} |}.

(** Step 2 of [verify]: the loop over the invariants, which appends each
    violated name and increments its counter. *)
Fixpoint check_invariants (state : dict) (invs : list Invariant)
    (violations : list string) (counters : gmap string nat)
  : gmap string nat * result (list string) :=
  match invs with
  | [] => (counters, Ok violations)
  | invariant :: rest =>
      match check invariant state with
      | Err e => (counters, Err e)
      | Ok holds =>
          if truthy holds then check_invariants state rest violations counters
          else
            match counters !! name invariant with
            | None => (counters, Err KeyError)
            | Some n =>
                check_invariants state rest
                  (violations ++ [name invariant])
                  (<[name invariant := S n]> counters)
            end
      end
  end.

Definition with_counters (self : t) (counters : gmap string nat) : t :=
  {| invariants := invariants self;
     strict_mode := strict_mode self;
     enable_audit := enable_audit self;
     audit_logger := audit_logger self;
     stats := {| total_verifications := total_verifications (stats self);
                 allowed_count := allowed_count (stats self);
                 blocked := blocked (stats self);
                 violations_by_invariant := counters |} |}.

(** Update statistics. *)
Definition count_outcome (self : t) (allowed : bool) : t :=
  {| invariants := invariants self;
     strict_mode := strict_mode self;
     enable_audit := enable_audit self;
     audit_logger := audit_logger self;
     stats :=
       {| total_verifications := S (total_verifications (stats self));
          allowed_count :=
            if allowed then S (allowed_count (stats self))
            else allowed_count (stats self);
          blocked :=
            if allowed then blocked (stats self) else S (blocked (stats self));
          violations_by_invariant := violations_by_invariant (stats self) |} |}.

Definition with_logger (self : t) (logger : AuditLogger.t) : t :=
  {| invariants := invariants self;
     strict_mode := strict_mode self;
     enable_audit := enable_audit self;
     audit_logger := Some logger;
     stats := stats self |}.

Section Kernel.
Context `{Builtins}.

(** Verify an action against governance invariants.  The kernel after
    the call is returned also when the call raises. *)
Definition verify (self : t) (context action : dict)
    (metadata : option dict) (env : Env) : t * result VerificationResult :=
  match StateEncoder.encode context action with
  | Err e => (self, Err e)
  | Ok state =>
      let '(counters, checked) :=
        check_invariants state (invariants self) []
          (violations_by_invariant (stats self)) in
      let self := with_counters self counters in
      match checked with
      | Err e => (self, Err e)
      | Ok violations =>
          let allowed := Nat.eqb (length violations) 0 in
          match (if allowed then Ok None
                 else r ← HandlerRegistry.handle violations context action;
                      Ok (Some r))
          with
          | Err e => (self, Err e)
          | Ok remediation =>
              let self := count_outcome self allowed in
              let result :=
                {| Result.allowed := allowed;
                   violations := violations;
                   remediation := remediation;
                   audit_id := None;
                   timestamp := Some (utcnow_result env);
                   latency_us := latency env |} in
              if enable_audit self then
                match audit_logger self with
                | None => (self, Err AttributeError)
                | Some logger =>
                    let '(logger, audit_id) :=
                      AuditLogger.log_verification logger context action
                        result metadata (uuid4 env) (utcnow_log env) in
                    (with_logger self logger, Ok (with_audit_id result audit_id))
                end
              else (self, Ok result)
          end
      end
  end.

(** Verify multiple actions in batch; [envs i] is what the [i]-th call
    reads from outside. *)
Fixpoint verify_batch (self : t) (context : dict) (actions : list dict)
    (envs : nat → Env) : t * result (list VerificationResult) :=
  match actions with
  | [] => (self, Ok [])
  | action :: rest =>
      match verify self context action None (envs 0%nat) with
      | (self, Err e) => (self, Err e)
      | (self, Ok r) =>
          match verify_batch self context rest (λ i, envs (S i)) with
          | (self, Err e) => (self, Err e)
          | (self, Ok rs) => (self, Ok (r :: rs))
          end
      end
  end.

(** Check if invariants are in conflict (no valid action exists). *)
Definition check_invariant_conflict (self : t) (context : dict)
    (possible_actions : list dict) (envs : nat → Env)
  : t * result (option Conflict) :=
  match verify_batch self context possible_actions envs with
  | (self, Err e) => (self, Err e)
  | (self, Ok results) =>
      if existsb allowed results then (self, Ok None)
      else
        let all_violations : gset string :=
          fold_left (λ s r, s ∪ list_to_set (violations r)) results ∅ in
        (self,
         Ok (Some {| type := "invariant_conflict";
                     message := "No valid action exists - invariants in conflict";
                     conflicting_invariants := all_violations;
                     attempted_actions := length possible_actions;
                     conflict_remediation := "human_decision_required";
                     escalation_priority := "high" |}))
  end.
End Kernel.

(** Reset all statistics counters. *)
Definition reset_stats (self : t) : t :=
  {| invariants := invariants self;
     strict_mode := strict_mode self;
     enable_audit := enable_audit self;
     audit_logger := audit_logger self;
     stats :=
       {| total_verifications := 0;
          allowed_count := 0;
          blocked := 0;
          violations_by_invariant :=
            zero_counters (invariants self)
              (violations_by_invariant (stats self)) |} |}.

Section Explain.
Context `{Builtins}.

(** The method [explain_violation] of the invariant objects, which the
    record [Invariant] does not carry. *)
Variable explain_violation : Invariant → dict → dict → string.

(** The inner loop of [explain]: one detail for each invariant of the list
    that bears the name of the violation. *)
Fixpoint details_of (violation : string) (invs : list Invariant)
    (context action : dict) : list pyval :=
  match invs with
  | [] => []
  | inv :: rest =>
      if String.eqb (name inv) violation then
        VDict [("invariant", VStr (name inv));
               ("description", VStr (description inv));
               ("why_violated", VStr (explain_violation inv context action))]
        :: details_of violation rest context action
      else details_of violation rest context action
  end.

(** Explain why an action was allowed or blocked. *)
Definition explain (self : t) (context action : dict) (env : Env)
  : t * result dict :=
  match verify self context action None env with
  | (self, Err e) => (self, Err e)
  | (self, Ok result) =>
      let explanation : dict :=
        [("decision", VStr (if allowed result then "ALLOWED" else "BLOCKED"));
         ("violations", VList (VStr <$> violations result));
         ("latency_us", latency_us result)] in
      if negb (allowed result) then
        let details :=
          flat_map
            (λ violation, details_of violation (invariants self) context action)
            (violations result) in
        let explanation := dict_set "details" (VList details) explanation in
        let explanation :=
          dict_set "remediation"
            (AuditLogger.of_optional (remediation result)) explanation in
        (self, Ok explanation)
      else (self, Ok explanation)
  end.
End Explain.


End GovernanceKernel.

(** * Vocabulary of the specification *)

Import Py.

(** [word] occurs in [key], the case of the letters of [key] aside. *)
Definition mentions (word key : string) : Prop :=
  ∃ pre mid post, key = pre +:+ mid +:+ post ∧ lower mid = word.

Definition names_a_secret (key : string) : Prop :=
  mentions "password" key ∨ mentions "secret" key.

(** What the sanitizer makes of one field. *)
Definition scrub (field : string * pyval) : string * pyval :=
  (field.1, if AuditLogger.sensitive field.1 then VStr "[REDACTED]" else field.2).

(** The ordering of the specification: none = 0 < advisory = 1 <
    binding = 2 < autonomous = 3; a value that names none of the four
    levels ranks with [none]. *)
Definition authorityRank (level : pyval) : Z :=
  match level with
  | VStr s =>
      if decide (s = "none") then 0
      else if decide (s = "advisory") then 1
      else if decide (s = "binding") then 2
      else if decide (s = "autonomous") then 3
      else 0
  | _ => 0
  end.

(** The invariant is violated on [state]: its check returns a false value. *)
Definition violated (state : dict) (inv : Invariants.Invariant) : bool :=
  match Invariants.check inv state with
  | Ok holds => negb (truthy holds)
  | Err _ => false
  end.

(** A kernel as its constructor and its methods leave it: every invariant
    has its violation counter, and the audit logger is there when auditing
    is enabled. *)
Definition kernel_wf (k : GovernanceKernel.t) : Prop :=
  (∀ inv, inv ∈ GovernanceKernel.invariants k →
          is_Some (GovernanceKernel.violations_by_invariant
                     (GovernanceKernel.stats k) !! Invariants.name inv)) ∧
  (GovernanceKernel.enable_audit k = true →
   is_Some (GovernanceKernel.audit_logger k)).

(** The verification of one candidate apart from the kernel's counters
    and log: the state is encoded and the invariants are checked on it. *)
Definition verdict (invs : list Invariants.Invariant) (context action : dict)
  : result (list string) :=
  state ← StateEncoder.encode context action;
  Verifier.check state invs.

(** The decision a call of [verify] reports: its [allowed] flag and its
    list of violations. *)
Definition decision (r : result Result.VerificationResult)
  : result (bool * list string) :=
  match r with
  | Ok r => Ok (Result.allowed r, Result.violations r)
  | Err e => Err e
  end.


(** A concrete runtime, on which instances of the statements below are
    evaluated: values are rendered structurally, and the digest of a text
    is the text itself. *)
Fixpoint render (v : pyval) : string :=
  match v with
  | VNone => "null"
  | VBool true => "true"
  | VBool false => "false"
  | VInt n => pretty n
  | VStr s => "'" +:+ s +:+ "'"
  | VList l =>
      "[" +:+
      (fix go (l : list pyval) : string :=
         match l with
         | [] => ""
         | x :: l' => render x +:+ "," +:+ go l'
         end) l +:+ "]"
  | VDict d =>
      "{" +:+
      (fix go (d : list (string * pyval)) : string :=
         match d with
         | [] => ""
         | (k, x) :: d' => k +:+ ":" +:+ render x +:+ "," +:+ go d'
         end) d +:+ "}"
  end.

Definition plain_runtime : Builtins :=
  {| py_str := render;
     json_dumps_sorted := render;
     sha256_hexdigest := λ text, text |}.

Definition plain_env : GovernanceKernel.Env :=
  {| GovernanceKernel.uuid4 := "00000000-0000-4000-8000-000000000000";
     GovernanceKernel.utcnow_result := "2024-01-01T00:00:00";
     GovernanceKernel.utcnow_log := "2024-01-01T00:00:00";
     GovernanceKernel.latency := VInt 12 |}.

(** Instances on which the statements below are evaluated. *)
Definition trade_context : dict := [("authority_level", VStr "advisory")].

Definition trade_action : dict :=
  [("type", VStr "execute_trade"); ("requires_authority", VStr "binding")].

Definition trade_state : dict :=
  Eval vm_compute in
    match StateEncoder.encode trade_context trade_action with
    | Ok state => state
    | Err _ => []
    end.

Definition hazmat_context : dict :=
  [("hard_constraints",
    VList [VStr "no_residential_hazmat"; VStr "time_limit_10"])].

Definition hazmat_action : dict :=
  [("type", VStr "select_route");
   ("estimated_time_minutes", VInt 8);
   ("passes_through_residential", VBool true);
   ("cargo_is_hazmat", VBool true)].




(** One call of [log_verification]: its arguments, and the identifier and
    the reading of the clock it draws. *)
Record LogCall : Type := {
  call_context : dict;
  call_action : dict;
  call_result : Result.VerificationResult;
  call_metadata : option dict;
  call_uuid : string;
  call_now : string;
}.

(** The logger after a sequence of calls of [log_verification]. *)
Definition log_all `{Builtins} (self : AuditLogger.t) (calls : list LogCall)
  : AuditLogger.t :=
  fold_left
    (λ logger c,
       (AuditLogger.log_verification logger (call_context c) (call_action c)
          (call_result c) (call_metadata c) (call_uuid c) (call_now c)).1)
    calls self.


(** The hash a chain of entries ends with, [p] for no entry. *)
Fixpoint tip (entries : list dict) (p : pyval) : pyval :=
  match entries with
  | [] => p
  | entry :: rest => tip rest (get_or entry "hash" VNone)
  end.

(** The state of a logger whose chain verifies and whose pointer is the
    hash the chain ends with. *)
Definition chain_valid `{Builtins} (self : AuditLogger.t) : Prop :=
  AuditLogger.verify_chain_from (AuditLogger.logs self) VNone = Ok true ∧
  AuditLogger.previous_hash self = tip (AuditLogger.logs self) VNone ∧
  (AuditLogger.previous_hash self = VNone ∨
   ∃ h, AuditLogger.previous_hash self = VStr h).

Definition two_calls : list LogCall :=
  [{| call_context := trade_context;
      call_action := trade_action;
      call_result :=
        {| Result.allowed := false;
           Result.violations := ["AIT-1"; "BG-1"];
           Result.remediation := None;
           Result.audit_id := None;
           Result.timestamp := Some "2024-01-01T00:00:00";
           Result.latency_us := VInt 12 |};
      call_metadata := None;
      call_uuid := "00000000-0000-4000-8000-000000000001";
      call_now := "2024-01-01T00:00:00" |};
   {| call_context := hazmat_context;
      call_action := hazmat_action;
      call_result :=
        {| Result.allowed := false;
           Result.violations := ["GI-1"];
           Result.remediation := None;
           Result.audit_id := None;
           Result.timestamp := Some "2024-01-01T00:00:01";
           Result.latency_us := VInt 9 |};
      call_metadata := Some [("caller", VStr "dispatch")];
      call_uuid := "00000000-0000-4000-8000-000000000002";
      call_now := "2024-01-01T00:00:01" |}].

(** The first entry of the log after [two_calls], and the outcome it
    stores with the [allowed] flag flipped. *)
Definition first_entry : dict :=
  Eval vm_compute in
    match AuditLogger.logs
            (@log_all plain_runtime (AuditLogger.init None) two_calls) !! 0%nat
    with
    | Some entry => entry
    | None => []
    end.

Definition flipped_outcome : pyval :=
  VDict [("allowed", VBool true);
         ("violations", VList [VStr "AIT-1"; VStr "BG-1"]);
         ("remediation", VNone);
         ("latency_us", VInt 12)].

(** The result [verify] builds from the violations it found, before the
    audit identifier is set. *)
Definition result_of (violations : list string) (remediation : option dict)
    (env : GovernanceKernel.Env) : Result.VerificationResult :=
  {| Result.allowed := Nat.eqb (length violations) 0;
     Result.violations := violations;
     Result.remediation := remediation;
     Result.audit_id := None;
     Result.timestamp := Some (GovernanceKernel.utcnow_result env);
     Result.latency_us := GovernanceKernel.latency env |}.

(** The three counters of the outcomes agree. *)
Definition stats_consistent (k : GovernanceKernel.t) : Prop :=
  GovernanceKernel.total_verifications (GovernanceKernel.stats k)
  = (GovernanceKernel.allowed_count (GovernanceKernel.stats k)
     + GovernanceKernel.blocked (GovernanceKernel.stats k))%nat.

(** The kernels a program can hold: built by the constructor and changed
    by the methods, whatever they return or raise. *)
Inductive reachable `{Builtins} : GovernanceKernel.t → Prop :=
| reachable_init invs audit strict :
    reachable (GovernanceKernel.init invs audit strict)
| reachable_verify k context action metadata env :
    reachable k →
    reachable (GovernanceKernel.verify k context action metadata env).1
| reachable_verify_batch k context actions envs :
    reachable k →
    reachable (GovernanceKernel.verify_batch k context actions envs).1
| reachable_conflict k context actions envs :
    reachable k →
    reachable (GovernanceKernel.check_invariant_conflict k context actions envs).1
| reachable_explain k explain_violation context action env :
    reachable k →
    reachable (GovernanceKernel.explain explain_violation k context action env).1
| reachable_reset k :
    reachable k → reachable (GovernanceKernel.reset_stats k).

(** The audit log of a kernel, empty without a logger. *)
Definition audit_log (k : GovernanceKernel.t) : list dict :=
  match GovernanceKernel.audit_logger k with
  | Some logger => AuditLogger.logs logger
  | None => []
  end.

(** The audit chain of the kernel's logger, when there is one, verifies
    and ends with the logger's pointer. *)
Definition logger_ok `{Builtins} (k : GovernanceKernel.t) : Prop :=
  match GovernanceKernel.audit_logger k with
  | Some logger => chain_valid logger
  | None => True
  end.

(** What every method of the kernel keeps. *)
Definition kernel_inv `{Builtins} (k : GovernanceKernel.t) : Prop :=
  kernel_wf k ∧ stats_consistent k ∧ logger_ok k.

(** The result of the verification of [trade_action], for instances. *)
Definition trade_result : Result.VerificationResult :=
  Eval vm_compute in
    match (@GovernanceKernel.verify plain_runtime
             (GovernanceKernel.init None true true)
             trade_context trade_action None plain_env).2
    with
    | Ok r => r
    | Err _ => result_of [] None plain_env
    end.

(** The keys of the context the encoder reads. *)
Definition context_keys_read : list string :=
  ["authority_level"; "consequence_bearer"; "decision_maker";
   "human_in_authority_chain"; "human_signature"; "hard_constraints";
   "interpretation_authority"; "affects_group";
   "delegated_authority_from_affected"].

(** The context of the logistics scenario of the test suite. *)
Definition logistics_context : dict :=
  [("cargo_type", VStr "life_saving_medicine");
   ("cargo_classification", VStr "chemical_hazard");
   ("destination", VStr "city_hospital");
   ("time_constraint_minutes", VInt 10);
   ("current_time", VInt 0);
   ("patient_status", VStr "critical")].

(** The logger with its stored entries replaced by [entries]. *)
Definition with_logs (self : AuditLogger.t) (entries : list dict)
  : AuditLogger.t :=
  {| AuditLogger.log_file := AuditLogger.log_file self;
     AuditLogger.logs := entries;
     AuditLogger.previous_hash := AuditLogger.previous_hash self |}.

(** The entry stores an allowed outcome. *)
Definition stored_allowed (entry : dict) : bool :=
  match AuditLogger.entry_allowed entry with
  | Ok a => truthy a
  | Err _ => false
  end.

(** The first entry of the log after [two_calls] with its outcome flipped
    and its hash computed anew. *)
Definition rehashed_entry : dict :=
  dict_set "hash"
    (VStr (@AuditLogger._calculate_hash plain_runtime
             (dict_set "result" flipped_outcome first_entry)))
    (dict_set "result" flipped_outcome first_entry).

(** Datetimes as their ISO texts, compared as texts: an instance on which
    the statements on [get_logs] are evaluated. *)
Definition plain_datetimes : Datetimes :=
  {| datetime := string;
     fromisoformat := λ text, Ok text;
     datetime_le := λ a b, Ok (String.leb a b) |}.


(** * Properties *)

(** ** Strings and dictionaries *)

Section StringFacts.

Lemma append_nil (b : string) : EmptyString +:+ b = b.
Proof. reflexivity. Qed.

Lemma append_cons (c : ascii) (a b : string) :
  String c a +:+ b = String c (a +:+ b).
Proof. reflexivity. Qed.

Lemma prefix_app (p s : string) :
  String.prefix p s = true ↔ ∃ post, s = p +:+ post.
Proof.
  revert s. induction p as [|c p IH]; intros s.
  - split; [intros _; by exists s | by destruct s].
  - destruct s as [|d s]; simpl.
    + split; [done | intros [post Hpost]; discriminate].
    + setoid_rewrite append_cons.
      destruct (Ascii.ascii_dec c d) as [->|Hne].
      * rewrite IH. split; intros [post Hpost]; exists post; congruence.
      * split; [done | intros [post Hpost]; congruence].
Qed.

Lemma contains_app (sub s : string) :
  contains sub s = true ↔ ∃ pre post, s = pre +:+ sub +:+ post.
Proof.
  induction s as [|c s IH].
  - change (contains sub EmptyString)
      with (String.prefix sub EmptyString || false).
    rewrite orb_false_r, prefix_app. split.
    + intros [post Hpost]. by exists EmptyString, post.
    + intros [pre [post Hs]]. destruct pre; [by exists post | discriminate].
  - change (contains sub (String c s))
      with (String.prefix sub (String c s) || contains sub s).
    rewrite orb_true_iff, prefix_app, IH. split.
    + intros [[post Hpost] | [pre [post Hs]]].
      * by exists EmptyString, post.
      * exists (String c pre), post. by rewrite append_cons, Hs.
    + intros [pre [post Hs]]. destruct pre as [|d pre].
      * left. by exists post.
      * right. exists pre, post. rewrite append_cons in Hs. congruence.
Qed.

Lemma lower_app (a b : string) : lower (a +:+ b) = lower a +:+ lower b.
Proof.
  induction a as [|c a IH]; [done|].
  rewrite append_cons. simpl. by rewrite IH.
Qed.

Lemma lower_app_inv (s a b : string) :
  lower s = a +:+ b → ∃ a' b', s = a' +:+ b' ∧ lower a' = a ∧ lower b' = b.
Proof.
  revert s. induction a as [|c a IH]; intros s Hs.
  - by exists EmptyString, s.
  - rewrite append_cons in Hs.
    destruct s as [|d s]; simpl in Hs; [discriminate|].
    injection Hs as Hc Hrest. destruct (IH s Hrest) as (a' & b' & -> & Ha & Hb).
    exists (String d a'), b'. simpl. by rewrite Hc, Ha.
Qed.

End StringFacts.

Section DictFacts.
Context {A : Type}.
Implicit Types (d : list (string * A)) (k : string) (v : A).

Lemma dict_set_fresh k v d : k ∉ keys d → dict_set k v d = (d ++ [(k, v)])%list.
Proof.
  induction d as [|[k' v'] d IH]; simpl; [done|].
  rewrite not_elem_of_cons. intros [Hne Hnotin].
  destruct (String.eqb_spec k k') as [->|_]; [done|]. by rewrite IH.
Qed.


Lemma dict_get_set_ne k k' v d :
  k ≠ k' → dict_get k' (dict_set k v d) = dict_get k' d.
Proof.
  intros Hne. induction d as [|[k0 v0] d IH]; simpl.
  - destruct (String.eqb_spec k' k); [congruence | done].
  - destruct (String.eqb_spec k k0) as [->|Hne0]; simpl.
    + destruct (String.eqb_spec k' k0); [congruence | done].
    + by rewrite IH.
Qed.

End DictFacts.

(** ** The sanitizer of the audit logger *)

Section Sanitizer.
Import AuditLogger.



Lemma contains_lower_mentions (word key : string) :
  contains word (lower key) = true ↔ mentions word key.
Proof.
  rewrite contains_app. split.
  - intros (pre & post & Hkey).
    apply lower_app_inv in Hkey as (pre' & rest & -> & _ & Hrest).
    apply lower_app_inv in Hrest as (mid & post' & -> & Hmid & _).
    by exists pre', mid, post'.
  - intros (pre & mid & post & -> & Hmid).
    exists (lower pre), (lower post). by rewrite !lower_app, Hmid.
Qed.

Lemma sensitive_spec (key : string) : sensitive key = true ↔ names_a_secret key.
Proof.
  unfold sensitive, names_a_secret.
  by rewrite orb_true_iff, !contains_lower_mentions.
Qed.

Lemma sanitize_fold (data acc : dict) :
  NoDup (keys acc ++ keys data) →
  fold_left
    (λ sanitized '(key, value),
       if sensitive key then dict_set key (VStr "[REDACTED]") sanitized
       else dict_set key value sanitized)
    data acc
  = (acc ++ (scrub <$> data))%list.
Proof.
  revert acc. induction data as [|[key value] data IH]; intros acc Hnodup.
  - by rewrite app_nil_r.
  - assert (key ∉ keys acc) as Hfresh.
    { apply NoDup_app in Hnodup as (_ & Hdisj & _).
      intros Hin. apply (Hdisj key Hin). apply list_elem_of_here. }
    assert (∀ v : pyval, NoDup (keys (acc ++ [(key, v)])%list ++ keys data))
      as Hnext.
    { intros v. unfold keys in *. rewrite fmap_app. simpl.
      by rewrite <- app_assoc. }
    rewrite fmap_cons. unfold scrub at 1. simpl.
    destruct (sensitive key); rewrite dict_set_fresh by done;
      rewrite IH by apply Hnext; by rewrite <- app_assoc.
Qed.

Lemma sanitize_map (data : dict) :
  NoDup (keys data) → _sanitize data = scrub <$> data.
Proof. intros Hnodup. unfold _sanitize. by rewrite sanitize_fold. Qed.

Lemma dict_get_scrub (key : string) (data : dict) :
  dict_get key (scrub <$> data)
  = (λ value, if sensitive key then VStr "[REDACTED]" else value)
      <$> dict_get key data.
Proof.
  induction data as [|[k v] data IH]; simpl; [done|].
  destruct (String.eqb_spec key k) as [->|Hne]; [done | apply IH].
Qed.

End Sanitizer.

(** ** The handler registry *)

Section Registry.
Context `{Builtins}.
Import HandlerRegistry.

Lemma occurs_elem_of (name : string) (violations : list string) :
  occurs name violations = true ↔ name ∈ violations.
Proof.
  unfold occurs. rewrite existsb_exists. split.
  - intros (x & Hin & Heq). apply String.eqb_eq in Heq as ->.
    by apply list_elem_of_In.
  - intros Hin. exists name. split; [by apply list_elem_of_In|].
    apply String.eqb_refl.
Qed.

Lemma first_occurring_Some (order violations : list string) (p : string) :
  first_occurring order violations = Some p →
  ∃ higher lower,
    order = (higher ++ p :: lower)%list ∧ p ∈ violations ∧
    ∀ q, q ∈ higher → q ∉ violations.
Proof.
  induction order as [|o order IH]; simpl; [done|].
  destruct (occurs o violations) eqn:Hocc.
  - intros [= ->]. exists [], order. apply occurs_elem_of in Hocc.
    split_and!; [done | done |]. intros q Hq. by apply elem_of_nil in Hq.
  - intros Hrest. destruct (IH Hrest) as (higher & lower & -> & Hp & Hhigher).
    exists (o :: higher), lower. split_and!; [done | done |].
    intros q [->|Hq]%elem_of_cons; [|by apply Hhigher].
    rewrite <- occurs_elem_of. by rewrite Hocc.
Qed.

Lemma first_occurring_None (order violations : list string) :
  first_occurring order violations = None →
  ∀ q, q ∈ order → q ∉ violations.
Proof.
  induction order as [|o order IH]; simpl.
  - intros _ q Hq. by apply elem_of_nil in Hq.
  - destruct (occurs o violations) eqn:Hocc; [done|].
    intros Hrest q [->|Hq]%elem_of_cons; [|by apply IH].
    rewrite <- occurs_elem_of. by rewrite Hocc.
Qed.

Lemma first_occurring_first (q : string) (order violations : list string) :
  occurs q violations = true →
  first_occurring (q :: order) violations = Some q.
Proof. intros Hocc. simpl. by rewrite Hocc. Qed.

(** A non-empty list of violations never makes [handle] raise. *)
Lemma handle_returns (violations : list string) (context action : dict) :
  ∃ remediation, handle violations context action = Ok remediation.
Proof.
  destruct violations as [|v violations]; [by eexists|].
  unfold handle, _prioritize_violations.
  destruct (first_occurring _ _); by eexists.
Qed.

End Registry.

(** ** The invariant AIT-1 *)

Section AuthorityInvariance.
Import Invariants.


Lemma authority_rank_spec (level : pyval) :
  hashable level = true → authority_rank level = Ok (authorityRank level).
Proof.
  destruct level as [| | |s| |]; try done. intros _.
  unfold authority_rank, authorityRank, get_or, authority_levels. simpl.
  repeat case_decide; subst; try done.
  repeat (match goal with
          | |- context [String.eqb ?a ?b] =>
              destruct (String.eqb_spec a b); [congruence|]
          end).
  done.
Qed.

End AuthorityInvariance.


(** ** Equality of hashable values *)

Section HashableFacts.








End HashableFacts.

(** ** The verifier and the loop of the kernel *)

Section VerifierFacts.
Import Verifier Invariants.

Lemma check_from_filter (state : dict) (invs : list Invariant) (vs : list string) :
  Forall (λ inv, returns (Invariants.check inv state)) invs →
  check_from state invs vs
  = Ok (vs ++ (name <$> filter (λ inv, violated state inv = true) invs))%list.
Proof.
  revert vs. induction invs as [|inv invs IH]; intros vs Hall.
  - simpl. by rewrite app_nil_r.
  - apply Forall_cons in Hall as [[holds Hholds] Hall].
    assert (violated state inv = negb (truthy holds)) as Hviolated
      by (unfold violated; by rewrite Hholds).
    simpl. rewrite Hholds. simpl. rewrite IH by done.
    rewrite filter_cons. case_decide as Hcase; simpl in Hcase;
      rewrite Hviolated in Hcase; destruct (truthy holds); simpl in *;
      try done.
    by rewrite <- app_assoc.
Qed.

End VerifierFacts.

Section KernelFacts.
Context `{Builtins}.
Import Invariants Result GovernanceKernel.

Lemma check_invariants_spec (state : dict) (invs : list Invariant)
    (vs : list string) (counters : gmap string nat) :
  (∀ inv, inv ∈ invs → is_Some (counters !! name inv)) →
  ∃ counters',
    check_invariants state invs vs counters
    = (counters', Verifier.check_from state invs vs) ∧
    ∀ n, is_Some (counters !! n) → is_Some (counters' !! n).
Proof.
  revert vs counters.
  induction invs as [|inv invs IH]; intros vs counters Hall; simpl.
  - by exists counters.
  - destruct (check inv state) as [holds|e]; simpl; [|by exists counters].
    destruct (truthy holds).
    + apply IH. intros i Hi. apply Hall. by apply list_elem_of_further.
    + destruct (Hall inv) as [n Hn]; [apply list_elem_of_here|]. rewrite Hn.
      destruct (IH (vs ++ [name inv])%list (<[name inv := S n]> counters))
        as (counters' & Heq & Hdom).
      { intros i Hi. apply lookup_insert_is_Some'. right.
        apply Hall. by apply list_elem_of_further. }
      exists counters'. split; [done|]. intros m Hm. apply Hdom.
      apply lookup_insert_is_Some'. by right.
Qed.

Lemma zero_counters_lookup (invs : list Invariant) (m : gmap string nat)
    (inv : Invariant) :
  inv ∈ invs ∨ is_Some (m !! name inv) →
  is_Some (zero_counters invs m !! name inv).
Proof.
  unfold zero_counters. revert m.
  induction invs as [|i invs IH]; intros m; simpl.
  - intros [Hin|Hsome]; [by apply elem_of_nil in Hin | done].
  - intros [[->|Hin]%elem_of_cons|Hsome]; apply IH.
    + right. apply lookup_insert_is_Some'. by left.
    + by left.
    + right. apply lookup_insert_is_Some'. by right.
Qed.

Lemma init_wf (invs : option (list Invariant)) (audit strict : bool) :
  kernel_wf (init invs audit strict).
Proof.
  split.
  - intros inv Hin. simpl in *. apply zero_counters_lookup. by left.
  - simpl. intros ->. by eexists.
Qed.

(** What a call of [verify] decides is the verdict on the candidate; the
    kernel it leaves is again well formed, with the same invariants. *)
Lemma verify_decision (k : t) (context action : dict)
    (metadata : option dict) (env : Env) :
  kernel_wf k →
  ∃ k' out,
    verify k context action metadata env = (k', out) ∧
    decision out
    = (vs ← verdict (invariants k) context action;
       Ok (Nat.eqb (length vs) 0, vs)) ∧
    kernel_wf k' ∧ invariants k' = invariants k.
Proof.
  intros [Hcounters Haudit]. unfold verify, verdict.
  destruct (StateEncoder.encode context action) as [state|e]; simpl;
    [|by exists k, (Err e)].
  destruct (check_invariants_spec state (invariants k) []
              (violations_by_invariant (stats k)) Hcounters)
    as (counters & -> & Hdom).
  assert (kernel_wf (with_counters k counters)) as Hwf1.
  { split; simpl; [|done]. intros inv Hin. by apply Hdom, Hcounters. }
  unfold Verifier.check.
  destruct (Verifier.check_from state (invariants k) []) as [vs|e]; simpl;
    [|by exists (with_counters k counters), (Err e)].
  assert (∃ remediation,
            (if Nat.eqb (length vs) 0 then Ok None
             else r ← HandlerRegistry.handle vs context action; Ok (Some r))
            = Ok remediation) as [remediation ->].
  { destruct (Nat.eqb (length vs) 0); [by eexists|].
    destruct (handle_returns vs context action) as [r ->].
    by eexists. }
  destruct (enable_audit k) eqn:Hon.
  - destruct (Haudit eq_refl) as [logger ->].
    eexists _, _. split; [reflexivity|]. split_and!; [done | | done].
    split; simpl; [|by eexists]. intros inv Hin. by apply Hdom, Hcounters.
  - eexists _, _. split; [reflexivity|]. split_and!; [done | | done].
    split; simpl; [|by rewrite Hon]. intros inv Hin. by apply Hdom, Hcounters.
Qed.

End KernelFacts.

(** * The claims of the specification *)

Section SanitizerClaim.
Import AuditLogger.

(** C9. For every dictionary passed through the sanitizer of the audit
    logger, the output has the same fields in the same order; every field
    whose name contains "password" or "secret", whatever the case of its
    letters, has the value "[REDACTED]" in the output, and every other
    field keeps its value. *)
Theorem sanitize_redacts_secret_fields (data : dict) :
  NoDup (keys data) →
  keys (_sanitize data) = keys data ∧
  ∀ key value,
    dict_get key data = Some value →
    (names_a_secret key →
     dict_get key (_sanitize data) = Some (VStr "[REDACTED]")) ∧
    (¬ names_a_secret key → dict_get key (_sanitize data) = Some value).
Proof.
  intros Hnodup. rewrite sanitize_map by done. split.
  - unfold keys. by rewrite <- list_fmap_compose.
  - intros key value Hget. rewrite dict_get_scrub, Hget. simpl.
    rewrite <- sensitive_spec. destruct (sensitive key); split; intros Hs.
    + done.
    + by destruct Hs.
    + discriminate.
    + done.
Qed.

Lemma sanitize_redacts_secret_fields_witness :
  NoDup (keys [("user", VStr "ann"); ("Api_SECRET", VStr "k3y")]) ∧
  keys (_sanitize [("user", VStr "ann"); ("Api_SECRET", VStr "k3y")])
  = keys [("user", VStr "ann"); ("Api_SECRET", VStr "k3y")].
Proof.
  assert (NoDup (keys [("user", VStr "ann"); ("Api_SECRET", VStr "k3y")]))
    as Hnodup by (apply (bool_decide_unpack _); vm_compute; reflexivity).
  split; [exact Hnodup|].
  exact (proj1 (sanitize_redacts_secret_fields _ Hnodup)).
Defined.

End SanitizerClaim.

Section RegistryClaim.
Context `{Builtins}.
Import HandlerRegistry.

(** C5. For every non-empty list of violation names, [handle] runs the
    handler of one primary violation: the first name of the order BG-1 >
    GI-1 > CMP-1 > AIT-1 > EXP-1 > MAP-1 that occurs in the list, or the
    first element of the list when none of the six occurs.  In particular,
    when "BG-1" is in the list (with "AIT-1" or without), the remediation
    is the one of BG-1, whose action is "require_human_authority". *)
Theorem handle_selects_by_priority
    (violations : list string) (context action : dict) :
  violations ≠ [] →
  ∃ primary,
    _prioritize_violations violations = Ok primary ∧
    handle violations context action
    = Ok (get_or handlers primary _handle_default context action violations) ∧
    ((∃ higher lower,
        priority_order = (higher ++ primary :: lower)%list ∧
        primary ∈ violations ∧
        ∀ q, q ∈ higher → q ∉ violations) ∨
     ((∀ q, q ∈ priority_order → q ∉ violations) ∧
      head violations = Some primary)) ∧
    ("BG-1" ∈ violations →
     primary = "BG-1" ∧
     handle violations context action
     = Ok (_handle_bg1 context action violations) ∧
     dict_get "action" (_handle_bg1 context action violations)
     = Some (VStr "require_human_authority")).
Proof.
  intros Hne. destruct violations as [|v violations]; [done|].
  unfold handle, _prioritize_violations.
  destruct (first_occurring priority_order (v :: violations)) as [p|] eqn:Hfirst.
  - exists p. split_and!; [done | done | |].
    + left. by apply first_occurring_Some.
    + intros Hbg. apply occurs_elem_of in Hbg.
      unfold priority_order in Hfirst.
      rewrite first_occurring_first in Hfirst by done.
      injection Hfirst as <-. done.
  - exists v. split_and!; [done | done | |].
    + right. split; [|done]. by apply first_occurring_None.
    + intros Hbg. exfalso.
      apply (first_occurring_None _ _ Hfirst "BG-1"); [|done].
      unfold priority_order. apply list_elem_of_here.
Qed.

End RegistryClaim.

Lemma handle_selects_by_priority_witness :
  ["AIT-1"; "BG-1"] ≠ [] ∧
  ∃ primary,
    @HandlerRegistry._prioritize_violations ["AIT-1"; "BG-1"] = Ok primary ∧
    primary = "BG-1".
Proof.
  assert (["AIT-1"; "BG-1"] ≠ []) as Hne by discriminate.
  split; [exact Hne|].
  destruct (@handle_selects_by_priority plain_runtime
              ["AIT-1"; "BG-1"] [] [] Hne)
    as (primary & Hprimary & _ & _ & Hbg).
  exists primary. split; [exact Hprimary|].
  apply Hbg. apply list_elem_of_further, list_elem_of_here.
Defined.


Section AuthorityClaim.
Import Invariants.

(** C7. For every canonical state, the check of AIT-1 returns true if and
    only if the rank of the granted authority level is greater than or
    equal to the rank of the required authority level, under the ordering
    none = 0 < advisory = 1 < binding = 2 < autonomous = 3.  (The levels are
    hashable values, as strings are; a missing field counts as "none".) *)
Theorem AIT1_holds_iff_rank (state : dict) :
  hashable (get_or state "authority_level" (VStr "none")) = true →
  hashable (get_or state "requires_authority" (VStr "none")) = true →
  ∃ holds,
    AIT1_check state = Ok (VBool holds) ∧
    (holds = true ↔
     (authorityRank (get_or state "authority_level" (VStr "none"))
      >= authorityRank (get_or state "requires_authority" (VStr "none")))%Z).
Proof.
  intros Hgranted Hrequired. unfold AIT1_check.
  rewrite (authority_rank_spec _ Hgranted), (authority_rank_spec _ Hrequired).
  eexists. split; [reflexivity|]. rewrite Z.leb_le. lia.
Qed.

Lemma AIT1_holds_iff_rank_witness :
  hashable (get_or [("authority_level", VStr "advisory");
                    ("requires_authority", VStr "binding")]
                   "authority_level" (VStr "none")) = true ∧
  hashable (get_or [("authority_level", VStr "advisory");
                    ("requires_authority", VStr "binding")]
                   "requires_authority" (VStr "none")) = true ∧
  ∃ holds,
    AIT1_check [("authority_level", VStr "advisory");
                ("requires_authority", VStr "binding")] = Ok (VBool holds).
Proof.
  split; [reflexivity|]. split; [reflexivity|].
  destruct (AIT1_holds_iff_rank
              [("authority_level", VStr "advisory");
               ("requires_authority", VStr "binding")]
              eq_refl eq_refl) as (holds & Hcheck & _).
  exists holds. exact Hcheck.
Defined.

End AuthorityClaim.

(** ** Verification *)

Section VerifyFacts.
Context `{Builtins}.
Import Invariants Result GovernanceKernel.





End VerifyFacts.

Section VerifyClaims.
Context `{Builtins}.
Import Invariants Result GovernanceKernel.

(** C6. For every context and action on which the encoder and the checks
    return, [verify] produces a result whose violations are exactly the
    names of the invariants of the kernel's list whose check returns a
    false value on the encoded state, in the order of that list, without
    reordering or deduplication; and its [allowed] flag is true if and only
    if that list of violations is empty. *)
Theorem verify_reports_violated_invariants
    (k : t) (context action : dict) (metadata : option dict) (env : Env)
    (state : dict) :
  kernel_wf k →
  StateEncoder.encode context action = Ok state →
  Forall (λ inv, returns (check inv state)) (invariants k) →
  ∃ k' r,
    verify k context action metadata env = (k', Ok r) ∧
    violations r
    = name <$> filter (λ inv, violated state inv = true) (invariants k) ∧
    (allowed r = true ↔ violations r = []).
Proof.
  intros Hwf Hencode Hreturn.
  destruct (verify_decision k context action metadata env Hwf)
    as (k' & out & Hverify & Hdecision & _).
  unfold verdict, Verifier.check in Hdecision.
  rewrite Hencode in Hdecision. simpl in Hdecision.
  rewrite check_from_filter in Hdecision by done. simpl in Hdecision.
  destruct out as [r|e]; simpl in Hdecision; [|done].
  injection Hdecision as Hallowed Hviolations.
  exists k', r. split_and!; [done | done |].
  rewrite Hallowed, Hviolations, Nat.eqb_eq.
  split; [apply nil_length_inv | by intros ->].
Qed.


(** C10. For every context, [check_invariant_conflict] on an empty list of
    candidates returns a conflict descriptor (not [None]) whose
    [attempted_actions] is 0 and whose [conflicting_invariants] is empty. *)
Theorem conflict_reported_without_candidates
    (k : t) (context : dict) (envs : nat → Env) :
  check_invariant_conflict k context [] envs
  = (k, Ok (Some {| type := "invariant_conflict";
                    message := "No valid action exists - invariants in conflict";
                    conflicting_invariants := ∅;
                    attempted_actions := 0;
                    conflict_remediation := "human_decision_required";
                    escalation_priority := "high" |})).
Proof. reflexivity. Qed.

(** C2, as the code has it.  For the context {authority_level: "advisory"}
    and the action {type: "respond", requires_authority:
    "binding_decision"}, [verify] allows the action and reports no
    violation: "binding_decision" is not a level of the table of AIT-1 and
    ranks 0. *)
Theorem verify_allows_binding_decision_under_advisory
    (audit strict : bool) (metadata : option dict) (env : Env) :
  decision
    (verify (init None audit strict)
       [("authority_level", VStr "advisory")]
       [("type", VStr "respond");
        ("requires_authority", VStr "binding_decision")]
       metadata env).2
  = Ok (true, []).
Proof.
  destruct (verify_decision (init None audit strict)
              [("authority_level", VStr "advisory")]
              [("type", VStr "respond");
               ("requires_authority", VStr "binding_decision")]
              metadata env (init_wf None audit strict))
    as (k' & out & Hverify & Hdecision & _).
  rewrite Hverify. simpl. rewrite Hdecision. reflexivity.
Qed.

End VerifyClaims.

(** C3, as the code has it.  [encode] raises for a context whose
    consequence_bearer is null ([None] has no [startswith]) and for a hard
    constraint time_limit_<suffix> whose suffix is not a number ([int]
    rejects it). *)
Theorem encode_raises_on_null_bearer_and_malformed_limit :
  StateEncoder.encode [("consequence_bearer", VNone)] [] = Err AttributeError ∧
  StateEncoder.encode [("hard_constraints", VList [VStr "time_limit_abc"])] []
  = Err ValueError.
Proof. split; reflexivity. Qed.

Lemma verify_reports_violated_invariants_witness :
  kernel_wf (GovernanceKernel.init None true true) ∧
  StateEncoder.encode trade_context trade_action = Ok trade_state ∧
  Forall (λ inv, returns (Invariants.check inv trade_state))
         (GovernanceKernel.invariants (GovernanceKernel.init None true true)) ∧
  ∃ k' r,
    @GovernanceKernel.verify plain_runtime (GovernanceKernel.init None true true)
      trade_context trade_action None plain_env = (k', Ok r) ∧
    Result.violations r = ["AIT-1"; "BG-1"].
Proof.
  assert (kernel_wf (GovernanceKernel.init None true true)) as Hwf
    by apply init_wf.
  assert (StateEncoder.encode trade_context trade_action = Ok trade_state)
    as Hencode by reflexivity.
  assert (Forall (λ inv, returns (Invariants.check inv trade_state))
            (GovernanceKernel.invariants (GovernanceKernel.init None true true)))
    as Hreturn.
  { simpl. unfold GovernanceKernel._default_invariants.
    repeat (apply Forall_cons; split; [unfold returns; eexists; reflexivity|]).
    apply Forall_nil_2. }
  destruct (@verify_reports_violated_invariants plain_runtime
              (GovernanceKernel.init None true true) trade_context trade_action
              None plain_env trade_state Hwf Hencode Hreturn)
    as (k' & r & Hverify & Hviolations & _).
  split; [exact Hwf|]. split; [exact Hencode|]. split; [exact Hreturn|].
  exists k', r. split; [exact Hverify|]. rewrite Hviolations. reflexivity.
Defined.


Section ConflictClaim.
Context `{Builtins}.
Import Invariants Result GovernanceKernel.


End ConflictClaim.


(** A candidate whose verification raises makes the whole conflict check
    raise, also when another candidate is allowed: here the second
    candidate gives its duration as a text, which cannot be compared with
    the limit. *)
Example conflict_check_propagates_a_raise :
  (@GovernanceKernel.check_invariant_conflict plain_runtime
     (GovernanceKernel.init None true true)
     [("hard_constraints", VList [VStr "time_limit_10"])]
     [[("type", VStr "select_route"); ("estimated_time_minutes", VInt 7)];
      [("type", VStr "select_route"); ("estimated_time_minutes", VStr "soon")]]
     (λ _, plain_env)).2
  = Err TypeError.
Proof. vm_compute. reflexivity. Qed.

(** ** The audit chain *)

Section ChainFacts.
Context `{Builtins}.
Import Result AuditLogger.

Lemma body_dict_set_hash (h : pyval) (entry : dict) :
  filter (λ kv, negb (String.eqb kv.1 "hash") = true) (dict_set "hash" h entry)
  = filter (λ kv, negb (String.eqb kv.1 "hash") = true) entry.
Proof.
  induction entry as [|[k v] entry IH]; [done|]. cbn [dict_set].
  destruct (String.eqb_spec "hash" k) as [<-|Hne].
  - by rewrite !filter_cons_False by (simpl; by intros ?).
  - rewrite !filter_cons. case_decide; by rewrite IH.
Qed.

Lemma calculate_hash_dict_set_hash (h : pyval) (entry : dict) :
  _calculate_hash (dict_set "hash" h entry) = _calculate_hash entry.
Proof. unfold _calculate_hash. by rewrite body_dict_set_hash. Qed.

Lemma chain_app (l1 l2 : list dict) (p : pyval) :
  verify_chain_from l1 p = Ok true →
  verify_chain_from (l1 ++ l2) p = verify_chain_from l2 (tip l1 p).
Proof.
  revert p. induction l1 as [|entry l1 IH]; intros p; [done|].
  cbn [verify_chain_from app tip].
  destruct (dict_get "previous_hash" entry) as [recorded|]; [|done].
  destruct (negb (py_eq recorded p)); [done|].
  unfold get_or. destruct (dict_get "hash" entry) as [stored|]; [|done].
  destruct (negb (py_eq (VStr (_calculate_hash entry)) stored)); [done|].
  apply IH.
Qed.

Lemma chain_prefix (l1 l2 : list dict) (p : pyval) :
  verify_chain_from (l1 ++ l2) p = Ok true → verify_chain_from l1 p = Ok true.
Proof.
  revert p. induction l1 as [|entry l1 IH]; intros p; [done|].
  cbn [verify_chain_from app].
  destruct (dict_get "previous_hash" entry) as [recorded|]; [|done].
  destruct (negb (py_eq recorded p)); [done|].
  destruct (dict_get "hash" entry) as [stored|]; [|done].
  destruct (negb (py_eq (VStr (_calculate_hash entry)) stored)); [done|].
  apply IH.
Qed.

Lemma chain_head (entry : dict) (rest : list dict) (p : pyval) :
  verify_chain_from (entry :: rest) p = Ok true →
  ∃ recorded,
    dict_get "previous_hash" entry = Some recorded ∧
    dict_get "hash" entry = Some (VStr (_calculate_hash entry)).
Proof.
  cbn [verify_chain_from].
  destruct (dict_get "previous_hash" entry) as [recorded|]; [|done].
  destruct (negb (py_eq recorded p)); [done|].
  destruct (dict_get "hash" entry) as [stored|]; [|done].
  destruct (py_eq (VStr (_calculate_hash entry)) stored) eqn:Heq; [|done].
  intros _. exists recorded. split; [done|].
  destruct stored; simpl in Heq; try done. by apply String.eqb_eq in Heq as ->.
Qed.

Lemma tip_app (l1 l2 : list dict) (p : pyval) :
  tip (l1 ++ l2) p = tip l2 (tip l1 p).
Proof. revert p. induction l1 as [|entry l1 IH]; intros p; [done | apply IH]. Qed.

Lemma init_chain_valid (file : option string) : chain_valid (init file).
Proof. split_and!; [done | done | by left]. Qed.

Lemma log_verification_chain_valid (self : t) (context action : dict)
    (result : VerificationResult) (metadata : option dict) (uuid now : string) :
  chain_valid self →
  chain_valid (log_verification self context action result metadata uuid now).1.
Proof.
  intros (Hchain & Hpointer & Hshape). unfold chain_valid, log_verification.
  cbn [fst logs previous_hash].
  split_and!; [| | by eauto].
  - rewrite chain_app by done. rewrite <- Hpointer.
    cbn [verify_chain_from].
    rewrite calculate_hash_dict_set_hash.
    cbn [dict_set dict_get String.eqb Ascii.eqb Bool.eqb].
    assert (py_eq (previous_hash self) (previous_hash self) = true) as ->.
    { destruct Hshape as [->|[h ->]]; [done | apply String.eqb_refl]. }
    cbn [negb py_eq]. by rewrite String.eqb_refl.
  - rewrite tip_app. cbn [tip]. unfold get_or.
    by cbn [dict_set dict_get String.eqb Ascii.eqb Bool.eqb].
Qed.




End ChainFacts.

Section ChainClaim.
Context `{Builtins}.
Import Result AuditLogger.


End ChainClaim.


(** * Further properties of the code *)

(** ** The cases of [verify] *)

Section VerifyCases.
Context `{Builtins}.
Import Invariants Result GovernanceKernel.

(** The kernel [verify] leaves when it returns. *)
Lemma verify_cases (k : t) (context action : dict) (metadata : option dict)
    (env : Env) :
  kernel_wf k →
  (∃ e, StateEncoder.encode context action = Err e ∧
        verify k context action metadata env = (k, Err e)) ∨
  (∃ state counters,
     StateEncoder.encode context action = Ok state ∧
     (∀ n, is_Some (violations_by_invariant (stats k) !! n) →
           is_Some (counters !! n)) ∧
     ((∃ e, Verifier.check state (invariants k) = Err e ∧
            verify k context action metadata env
            = (with_counters k counters, Err e)) ∨
      (∃ vs remediation,
         Verifier.check state (invariants k) = Ok vs ∧
         (if Nat.eqb (length vs) 0 then remediation = None
          else ∃ r, HandlerRegistry.handle vs context action = Ok r ∧
                    remediation = Some r) ∧
         ((enable_audit k = false ∧
           verify k context action metadata env
           = (count_outcome (with_counters k counters) (Nat.eqb (length vs) 0),
              Ok (result_of vs remediation env))) ∨
          (∃ logger,
             enable_audit k = true ∧ audit_logger k = Some logger ∧
             verify k context action metadata env
             = (with_logger
                  (count_outcome (with_counters k counters)
                     (Nat.eqb (length vs) 0))
                  (AuditLogger.log_verification logger context action
                     (result_of vs remediation env) metadata
                     (uuid4 env) (utcnow_log env)).1,
                Ok (with_audit_id (result_of vs remediation env)
                      (uuid4 env)))))))).
Proof.
  intros [Hcounters Haudit]. unfold verify.
  destruct (StateEncoder.encode context action) as [state|e];
    [right | left; by exists e].
  destruct (check_invariants_spec state (invariants k) []
              (violations_by_invariant (stats k)) Hcounters)
    as (counters & -> & Hdom).
  exists state, counters. split; [done|]. split; [done|].
  unfold Verifier.check.
  destruct (Verifier.check_from state (invariants k) []) as [vs|e];
    [right | left; by exists e].
  destruct (Nat.eqb (length vs) 0) eqn:Hempty.
  - exists vs, None. rewrite Hempty. split; [done|]. split; [done|].
    cbn [enable_audit count_outcome with_counters audit_logger].
    destruct (enable_audit k) eqn:Hon.
    + right. destruct (Haudit eq_refl) as [logger Hlogger]. rewrite Hlogger.
      exists logger. split_and!; [done | done |].
      unfold result_of. by rewrite Hempty.
    + left. split; [done|]. unfold result_of. by rewrite Hempty.
  - destruct (handle_returns vs context action) as [r Hr].
    exists vs, (Some r). rewrite Hempty, Hr. split; [done|].
    split; [by exists r|].
    cbn [mbind result_bind enable_audit count_outcome with_counters audit_logger].
    destruct (enable_audit k) eqn:Hon.
    + right. destruct (Haudit eq_refl) as [logger Hlogger]. rewrite Hlogger.
      exists logger. split_and!; [done | done |].
      unfold result_of. by rewrite Hempty.
    + left. split; [done|]. unfold result_of. by rewrite Hempty.
Qed.

End VerifyCases.

(** ** The handler registry *)

Section RegistryExtras.
Context `{Builtins}.
Import HandlerRegistry.

Lemma handler_names_an_action (primary : string) (context action : dict)
    (violations : list string) :
  ∃ tag,
    dict_get "action"
      (get_or handlers primary _handle_default context action violations)
    = Some (VStr tag) ∧ tag ≠ "allow".
Proof.
  unfold get_or, handlers. cbn [dict_get].
  repeat (match goal with
          | |- context [String.eqb primary ?name] =>
              destruct (String.eqb primary name)
          end;
          [eexists; split; [reflexivity | discriminate] |]).
  eexists; split; [reflexivity | discriminate].
Qed.

Lemma handle_nonempty_tag (violations : list string) (context action : dict)
    (remediation : dict) :
  violations ≠ [] →
  handle violations context action = Ok remediation →
  ∃ tag, dict_get "action" remediation = Some (VStr tag) ∧ tag ≠ "allow".
Proof.
  intros Hne. destruct violations as [|v violations]; [done|].
  unfold handle, _prioritize_violations.
  destruct (first_occurring priority_order (v :: violations)) as [p|];
    cbn [mbind result_bind]; intros [= <-]; apply handler_names_an_action.
Qed.


(** X2. When none of the six names BG-1, GI-1, CMP-1, AIT-1, EXP-1, MAP-1
    occurs in a non-empty list of violations, [handle] answers with the
    default handler: action "block", and the whole list rendered in the
    reason. *)
Theorem handle_blocks_unknown_violations
    (violations : list string) (context action : dict) :
  violations ≠ [] →
  (∀ q, q ∈ priority_order → q ∉ violations) →
  handle violations context action
  = Ok [("action", VStr "block");
        ("reason", VStr ("Unknown invariant violations: " +:+
                         py_str (VList (VStr <$> violations))));
        ("suggested_action", VStr "Review governance requirements")].
Proof.
  intros Hne Hunknown. destruct violations as [|v violations]; [done|].
  assert (first_occurring priority_order (v :: violations) = None) as Hnone.
  { destruct (first_occurring priority_order (v :: violations)) as [p|] eqn:Hp;
      [|done].
    apply first_occurring_Some in Hp as (higher & lower & Horder & Hin & _).
    exfalso. apply (Hunknown p); [|done].
    rewrite Horder. apply elem_of_app. right. apply list_elem_of_here. }
  unfold handle, _prioritize_violations. rewrite Hnone.
  cbn [mbind result_bind].
  assert (∀ q, q ∈ priority_order → String.eqb v q = false) as Hv.
  { intros q Hq. apply String.eqb_neq. intros ->.
    apply (Hunknown q Hq). apply list_elem_of_here. }
  unfold get_or, handlers. cbn [dict_get].
  rewrite !Hv by (unfold priority_order; set_solver).
  reflexivity.
Qed.

End RegistryExtras.

Lemma handle_blocks_unknown_violations_witness :
  ["CUSTOM-7"] ≠ [] ∧
  ∃ reason,
    @HandlerRegistry.handle plain_runtime ["CUSTOM-7"] [] []
    = Ok [("action", VStr "block"); ("reason", VStr reason);
          ("suggested_action", VStr "Review governance requirements")].
Proof.
  assert (["CUSTOM-7"] ≠ []) as Hne by discriminate.
  split; [exact Hne|]. eexists.
  apply (@handle_blocks_unknown_violations plain_runtime ["CUSTOM-7"] [] [] Hne).
  intros q Hq Hin. apply list_elem_of_singleton in Hin. subst q.
  unfold HandlerRegistry.priority_order in Hq.
  repeat (apply elem_of_cons in Hq as [Hq|Hq]; [discriminate Hq|]).
  by apply elem_of_nil in Hq.
Defined.

(** ** What [verify] returns and leaves *)

Section VerifyExtras.
Context `{Builtins}.
Import Invariants Result GovernanceKernel.

(** X3. A result of [verify] carries the reading of the clock and the
    latency of the call, and the audit identifier exactly when auditing is
    enabled; it is allowed exactly when it lists no violation; an allowed
    result has no remediation, and a blocked one has the remediation
    [handle] gives for its violations, whose action is never "allow". *)
Theorem verify_result_shape
    (k : t) (context action : dict) (metadata : option dict) (env : Env)
    (r : VerificationResult) :
  kernel_wf k →
  (verify k context action metadata env).2 = Ok r →
  timestamp r = Some (utcnow_result env) ∧
  latency_us r = latency env ∧
  audit_id r = (if enable_audit k then Some (uuid4 env) else None) ∧
  allowed r = Nat.eqb (length (violations r)) 0 ∧
  (allowed r = true → remediation r = None) ∧
  (allowed r = false →
   ∃ remediation_ tag,
     remediation r = Some remediation_ ∧
     HandlerRegistry.handle (violations r) context action = Ok remediation_ ∧
     dict_get "action" remediation_ = Some (VStr tag) ∧ tag ≠ "allow").
Proof.
  intros Hwf Hr.
  destruct (verify_cases k context action metadata env Hwf)
    as [(e & _ & Hv)
       |(state & counters & _ & _ &
         [(e & _ & Hv)
         |(vs & rem & _ & Hrem & [[Hoff Hv]|(logger & Hon & _ & Hv)])])];
    rewrite Hv in Hr; simpl in Hr; try done; injection Hr as <-;
    rewrite ?Hoff, ?Hon; cbn [timestamp latency_us audit_id allowed violations
                              remediation result_of with_audit_id].
  all: split_and!; try done.
  all: destruct (Nat.eqb (length vs) 0) eqn:Hempty; try done.
  all: intros _; destruct Hrem as (r0 & Hr0 & ->).
  all: assert (vs ≠ []) as Hne by (intros ->; done).
  all: destruct (handle_nonempty_tag vs context action r0 Hne Hr0)
         as (tag & Htag & Hallow).
  all: by exists r0, tag.
Qed.



End VerifyExtras.

(** ** The effect of [verify] on the kernel *)

Section KernelEffects.
Context `{Builtins}.
Import Invariants Result GovernanceKernel.

(** The kernel a call of [verify] leaves, by what the call returns. *)
Lemma verify_effect (k : t) (context action : dict) (metadata : option dict)
    (env : Env) :
  kernel_wf k →
  ∃ k' out,
    verify k context action metadata env = (k', out) ∧
    kernel_wf k' ∧ invariants k' = invariants k ∧
    enable_audit k' = enable_audit k ∧ strict_mode k' = strict_mode k ∧
    match out with
    | Err _ =>
        total_verifications (stats k') = total_verifications (stats k) ∧
        allowed_count (stats k') = allowed_count (stats k) ∧
        blocked (stats k') = blocked (stats k) ∧
        audit_logger k' = audit_logger k
    | Ok r =>
        total_verifications (stats k') = S (total_verifications (stats k)) ∧
        allowed_count (stats k')
        = (allowed_count (stats k) + if allowed r then 1 else 0)%nat ∧
        blocked (stats k')
        = (blocked (stats k) + if allowed r then 0 else 1)%nat ∧
        if enable_audit k then
          ∃ logger,
            audit_logger k = Some logger ∧
            audit_id r = Some (uuid4 env) ∧
            audit_logger k'
            = Some (AuditLogger.log_verification logger context action
                      (result_of (violations r) (remediation r) env)
                      metadata (uuid4 env) (utcnow_log env)).1
        else audit_logger k' = audit_logger k ∧ audit_id r = None
    end.
Proof.
  intros Hwf.
  destruct (verify_decision k context action metadata env Hwf)
    as (k0 & out0 & Hv0 & _ & Hwf' & Hinv).
  destruct (verify_cases k context action metadata env Hwf)
    as [(e & _ & Hv)
       |(state & counters & _ & _ &
         [(e & _ & Hv)
         |(vs & rem & _ & _ & [[Hoff Hv]|(logger & Hon & Hlogger & Hv)])])];
    rewrite Hv in Hv0; injection Hv0 as <- <-;
    eexists _, _; (split; [exact Hv|]); (split; [exact Hwf'|]);
    (split; [exact Hinv|]); (split; [reflexivity|]); (split; [reflexivity|]).
  - done.
  - done.
  - rewrite Hoff. cbn. destruct (Nat.eqb (length vs) 0);
      split_and!; try done; lia.
  - rewrite Hon. cbn. destruct (Nat.eqb (length vs) 0);
      (split_and!; [done | lia | lia |]); by exists logger.
Qed.

Lemma verify_result_fields (k : t) (context action : dict)
    (metadata : option dict) (env : Env) :
  kernel_wf k →
  ∀ r, (verify k context action metadata env).2 = Ok r →
       allowed r = Nat.eqb (length (violations r)) 0 ∧
       latency_us r = latency env.
Proof.
  intros Hwf r Hr.
  destruct (verify_cases k context action metadata env Hwf)
    as [(e & _ & Hv)
       |(state & counters & _ & _ &
         [(e & _ & Hv)
         |(vs & rem & _ & _ & [[_ Hv]|(logger & _ & _ & Hv)])])];
    rewrite Hv in Hr; simpl in Hr; try done; by injection Hr as <-.
Qed.


(** X7. With auditing enabled, a call of [verify] that returns appends
    exactly one entry to the audit log: the entry bears the audit
    identifier of the result and stores the sanitized context and action
    and the outcome of the call.  A call that raises appends nothing. *)
Theorem verify_appends_one_audit_entry
    (k : t) (context action : dict) (metadata : option dict) (env : Env) :
  kernel_wf k →
  enable_audit k = true →
  match (verify k context action metadata env).2 with
  | Ok r =>
      ∃ entry,
        audit_log (verify k context action metadata env).1
        = (audit_log k ++ [entry])%list ∧
        audit_id r = Some (uuid4 env) ∧
        dict_get "audit_id" entry = Some (VStr (uuid4 env)) ∧
        dict_get "context" entry = Some (VDict (AuditLogger._sanitize context)) ∧
        dict_get "action" entry = Some (VDict (AuditLogger._sanitize action)) ∧
        dict_get "result" entry
        = Some (VDict [("allowed", VBool (allowed r));
                       ("violations", VList (VStr <$> violations r));
                       ("remediation", AuditLogger.of_optional (remediation r));
                       ("latency_us", latency_us r)])
  | Err _ => audit_log (verify k context action metadata env).1 = audit_log k
  end.
Proof.
  intros Hwf Hon.
  pose proof (verify_result_fields k context action metadata env Hwf) as Hfields.
  destruct (verify_effect k context action metadata env Hwf)
    as (k' & out & Hv & _ & _ & _ & _ & Hout).
  rewrite Hv in *. cbn [fst snd] in *. destruct out as [r|e].
  - destruct Hout as (_ & _ & _ & Hlog). rewrite Hon in Hlog.
    destruct Hlog as (logger & Hlogger & Hid & Hlogger').
    destruct (Hfields r eq_refl) as (Hallowed & Hlatency).
    unfold audit_log. rewrite Hlogger, Hlogger'.
    eexists. split; [reflexivity|]. split; [done|].
    cbn [result_of allowed violations remediation latency_us].
    rewrite <- Hallowed, <- Hlatency. by split_and!.
  - destruct Hout as (_ & _ & _ & Hlog). unfold audit_log. by rewrite Hlog.
Qed.

End KernelEffects.

(** ** What the methods of the kernel keep *)

Section KernelInvariant.
Context `{Builtins}.
Import Invariants Result GovernanceKernel.

Lemma verify_keeps_inv (k : t) (context action : dict)
    (metadata : option dict) (env : Env) :
  kernel_inv k → kernel_inv (verify k context action metadata env).1.
Proof.
  intros (Hwf & Hstats & Hlogger).
  destruct (verify_effect k context action metadata env Hwf)
    as (k' & out & -> & Hwf' & _ & _ & _ & Hout).
  cbn [fst]. split; [done|]. unfold stats_consistent, logger_ok in *.
  destruct out as [r|e].
  - destruct Hout as (-> & -> & -> & Hlog). split.
    + rewrite Hstats. destruct (allowed r); lia.
    + destruct (enable_audit k).
      * destruct Hlog as (logger & Hsome & _ & ->). rewrite Hsome in Hlogger.
        by apply log_verification_chain_valid.
      * destruct Hlog as [-> _]. done.
  - destruct Hout as (-> & -> & -> & ->). done.
Qed.

Lemma verify_batch_keeps_inv (k : t) (context : dict) (actions : list dict)
    (envs : nat → Env) :
  kernel_inv k → kernel_inv (verify_batch k context actions envs).1.
Proof.
  revert k envs. induction actions as [|a actions IH]; intros k envs Hinv;
    [done|].
  pose proof (verify_keeps_inv k context a None (envs 0%nat) Hinv) as Hstep.
  cbn [verify_batch].
  destruct (verify k context a None (envs 0%nat)) as [k1 [r|e]]; [|done].
  pose proof (IH k1 (λ i, envs (S i)) Hstep) as Hrest.
  by destruct (verify_batch k1 context actions (λ i, envs (S i)))
    as [k2 [rs|e]].
Qed.

Lemma conflict_keeps_inv (k : t) (context : dict) (actions : list dict)
    (envs : nat → Env) :
  kernel_inv k →
  kernel_inv (check_invariant_conflict k context actions envs).1.
Proof.
  intros Hinv.
  pose proof (verify_batch_keeps_inv k context actions envs Hinv) as Hbatch.
  unfold check_invariant_conflict.
  destruct (verify_batch k context actions envs) as [k' [rs|e]]; [|done].
  by destruct (existsb allowed rs).
Qed.

Lemma explain_kernel (explain_violation : Invariant → dict → dict → string)
    (k : t) (context action : dict) (env : Env) :
  (explain explain_violation k context action env).1
  = (verify k context action None env).1.
Proof.
  unfold explain.
  destruct (verify k context action None env) as [k' [r|e]]; [|done].
  by destruct (allowed r).
Qed.

Lemma zero_counters_spec (invs : list Invariant) (m : gmap string nat)
    (n : string) :
  zero_counters invs m !! n
  = if decide (n ∈ name <$> invs) then Some 0%nat else m !! n.
Proof.
  unfold zero_counters. revert m.
  induction invs as [|inv invs IH]; intros m; [done|].
  cbn [fold_left]. rewrite IH, fmap_cons.
  destruct (decide (n ∈ name <$> invs)) as [Hin|Hnotin].
  - rewrite decide_True; [done | by apply list_elem_of_further].
  - destruct (decide (n = name inv)) as [->|Hne].
    + rewrite decide_True; [|apply list_elem_of_here].
      by rewrite lookup_insert_eq.
    + rewrite decide_False by (by intros [?|?]%elem_of_cons).
      by rewrite lookup_insert_ne.
Qed.

Lemma reset_keeps_inv (k : t) : kernel_inv k → kernel_inv (reset_stats k).
Proof.
  intros (Hwf & _ & Hlogger). split_and!; [|done|done].
  split; [|apply Hwf]. intros inv Hin. cbn. rewrite zero_counters_spec.
  rewrite decide_True; [by eexists|]. apply list_elem_of_fmap. by exists inv.
Qed.

Lemma init_inv (invs : option (list Invariant)) (audit strict : bool) :
  kernel_inv (init invs audit strict).
Proof.
  split_and!; [apply init_wf | done |].
  unfold logger_ok. cbn. destruct audit; [apply init_chain_valid | done].
Qed.

Lemma reachable_inv (k : t) : reachable k → kernel_inv k.
Proof.
  induction 1 as [| | | |k ev context action env _ IH|].
  - apply init_inv.
  - by apply verify_keeps_inv.
  - by apply verify_batch_keeps_inv.
  - by apply conflict_keeps_inv.
  - rewrite explain_kernel. by apply verify_keeps_inv.
  - by apply reset_keeps_inv.
Qed.

(** X8. On every kernel a program can hold (built by the constructor,
    changed by [verify], [verify_batch], [check_invariant_conflict],
    [explain] and [reset_stats], whether they return or raise), the total
    of the verifications is the number of the allowed plus the number of
    the blocked ones. *)
Theorem stats_total_is_allowed_plus_blocked (k : t) :
  reachable k →
  total_verifications (stats k)
  = (allowed_count (stats k) + blocked (stats k))%nat.
Proof. intros Hk. by destruct (reachable_inv k Hk) as (_ & Hstats & _). Qed.


(** X10. [reset_stats] sets the three counters of the outcomes to zero and
    the counter of every invariant of the kernel to zero, keeps the other
    entries of the table of counters, and leaves the invariants, the flags
    and the audit log as they are. *)
Theorem reset_stats_zeroes_the_counters (k : t) :
  total_verifications (stats (reset_stats k)) = 0%nat ∧
  allowed_count (stats (reset_stats k)) = 0%nat ∧
  blocked (stats (reset_stats k)) = 0%nat ∧
  (∀ inv, inv ∈ invariants k →
          violations_by_invariant (stats (reset_stats k)) !! name inv
          = Some 0%nat) ∧
  (∀ n, n ∉ name <$> invariants k →
        violations_by_invariant (stats (reset_stats k)) !! n
        = violations_by_invariant (stats k) !! n) ∧
  invariants (reset_stats k) = invariants k ∧
  audit_logger (reset_stats k) = audit_logger k.
Proof.
  split_and!; try done.
  - intros inv Hin. cbn. rewrite zero_counters_spec.
    rewrite decide_True; [done|]. apply list_elem_of_fmap. by exists inv.
  - intros n Hn. cbn. rewrite zero_counters_spec. by rewrite decide_False.
Qed.

End KernelInvariant.

(** ** Batches, the order of the violations and [explain] *)

Section BatchExtras.
Context `{Builtins}.
Import Invariants Result GovernanceKernel.


Lemma check_from_sublist (state : dict) (invs : list Invariant)
    (vs out : list string) :
  Verifier.check_from state invs vs = Ok out →
  ∃ found, out = (vs ++ found)%list ∧ found `sublist_of` name <$> invs.
Proof.
  revert vs. induction invs as [|inv invs IH]; intros vs; cbn.
  - intros [= <-]. exists []. by rewrite app_nil_r.
  - destruct (check inv state) as [holds|e]; cbn; [|done].
    intros Hout. apply IH in Hout as (found & -> & Hsub).
    destruct (truthy holds).
    + exists found. split; [done | by apply sublist_cons].
    + exists (name inv :: found). rewrite <- app_assoc.
      split; [done | by apply sublist_skip].
Qed.

Lemma verify_violations_named (k : t) (context action : dict)
    (metadata : option dict) (env : Env) :
  kernel_wf k →
  ∀ r, (verify k context action metadata env).2 = Ok r →
       violations r `sublist_of` name <$> invariants k.
Proof.
  intros Hwf r Hr.
  destruct (verify_cases k context action metadata env Hwf)
    as [(e & _ & Hv)
       |(state & counters & _ & _ &
         [(e & _ & Hv)
         |(vs & rem & Hcheck & _ & [[_ Hv]|(logger & _ & _ & Hv)])])];
    rewrite Hv in Hr; cbn [snd] in Hr; try done; injection Hr as <-;
    apply check_from_sublist in Hcheck as (found & -> & Hsub); done.
Qed.

(** X12. The violations of a result of [verify] are names of the
    invariants of the kernel, in the order of the list of invariants and
    each as often as there: with invariants of distinct names, as the six
    default ones, no name is listed twice. *)
Theorem verify_lists_violations_in_invariant_order
    (k : t) (context action : dict) (metadata : option dict) (env : Env)
    (r : VerificationResult) :
  kernel_wf k →
  (verify k context action metadata env).2 = Ok r →
  violations r `sublist_of` name <$> invariants k ∧
  (NoDup (name <$> invariants k) → NoDup (violations r)).
Proof.
  intros Hwf Hr.
  pose proof (verify_violations_named k context action metadata env Hwf r Hr)
    as Hsub.
  split; [done|]. intros Hnodup. by eapply sublist_NoDup.
Qed.

Section Explanations.
Variable explain_violation : Invariant → dict → dict → string.

Lemma details_of_absent (violation : string) (invs : list Invariant)
    (context action : dict) :
  violation ∉ name <$> invs →
  details_of explain_violation violation invs context action = [].
Proof.
  induction invs as [|inv invs IH]; [done|]. rewrite fmap_cons.
  intros [Hne Hnotin]%not_elem_of_cons. cbn [details_of].
  destruct (String.eqb_spec (name inv) violation); [congruence | by apply IH].
Qed.

Lemma details_of_unique (violation : string) (invs : list Invariant)
    (context action : dict) :
  NoDup (name <$> invs) → violation ∈ name <$> invs →
  ∃ detail,
    details_of explain_violation violation invs context action = [detail] ∧
    py_getitem detail "invariant" = Ok (VStr violation).
Proof.
  induction invs as [|inv invs IH]; rewrite ?fmap_cons.
  - intros _ Hin. by apply elem_of_nil in Hin.
  - intros [Hfresh Hnodup]%NoDup_cons Hin. cbn [details_of].
    destruct (String.eqb_spec (name inv) violation) as [<-|Hne].
    + rewrite details_of_absent by done. by eexists.
    + apply elem_of_cons in Hin as [?|Hin]; [congruence | by apply IH].
Qed.

Lemma details_follow (violations : list string) (invs : list Invariant)
    (context action : dict) :
  NoDup (name <$> invs) →
  (∀ v, v ∈ violations → v ∈ name <$> invs) →
  Forall2 (λ detail v, py_getitem detail "invariant" = Ok (VStr v))
    (flat_map (λ v, details_of explain_violation v invs context action)
       violations)
    violations.
Proof.
  intros Hnodup. induction violations as [|v violations IH]; intros Hin;
    [by apply Forall2_nil|].
  cbn [flat_map].
  destruct (details_of_unique v invs context action Hnodup)
    as (detail & -> & Hdetail); [apply Hin, list_elem_of_here|].
  apply Forall2_cons. split; [done|]. apply IH.
  intros w Hw. by apply Hin, list_elem_of_further.
Qed.

(** X13. [explain] is a verification: it leaves the kernel as [verify]
    leaves it (the call is counted and audited), raises what [verify]
    raises and reports the violations [verify] lists.  For an allowed
    action the explanation has the three fields decision = "ALLOWED",
    violations and latency_us and no other; for a blocked one the decision
    is "BLOCKED", the remediation is the one of [verify] and, the
    invariants having distinct names, the details are one per violation, in
    the order of the violations, each under the name of its invariant. *)
Theorem explain_reports_the_verification
    (k : t) (context action : dict) (env : Env) :
  kernel_wf k →
  NoDup (name <$> invariants k) →
  (explain explain_violation k context action env).1
  = (verify k context action None env).1 ∧
  match (verify k context action None env).2 with
  | Err e => (explain explain_violation k context action env).2 = Err e
  | Ok r =>
      ∃ explanation,
        (explain explain_violation k context action env).2 = Ok explanation ∧
        dict_get "violations" explanation
        = Some (VList (VStr <$> violations r)) ∧
        if allowed r then
          explanation = [("decision", VStr "ALLOWED");
                         ("violations", VList (VStr <$> violations r));
                         ("latency_us", latency_us r)]
        else
          dict_get "decision" explanation = Some (VStr "BLOCKED") ∧
          dict_get "remediation" explanation
          = Some (AuditLogger.of_optional (remediation r)) ∧
          ∃ details,
            dict_get "details" explanation = Some (VList details) ∧
            Forall2 (λ detail v, py_getitem detail "invariant" = Ok (VStr v))
              details (violations r)
  end.
Proof.
  intros Hwf Hnodup. split; [apply explain_kernel|].
  destruct (verify_decision k context action None env Hwf)
    as (k' & out & Hv & _ & _ & Hinv).
  pose proof (verify_violations_named k context action None env Hwf) as Hnamed.
  unfold explain. rewrite Hv in *. cbn [snd] in *.
  destruct out as [r|e]; [|done].
  specialize (Hnamed r eq_refl).
  destruct (allowed r); cbn [negb snd].
  - eexists. by split_and!.
  - eexists. split; [reflexivity|]. split_and!; [done | done | done |].
    eexists. split; [reflexivity|].
    rewrite Hinv. apply details_follow; [done|].
    intros v Hv'. by eapply elem_of_sublist.
Qed.

End Explanations.

End BatchExtras.

(** ** The encoder *)

Section EncoderExtras.
Import StateEncoder.

Lemma has_human_authority_inv (context : dict) (human : pyval) :
  _has_human_authority context = Ok human →
  ∃ b1 b2 b,
    py_startswith (get_or context "consequence_bearer" (VStr "")) "human"
    = Ok b1 ∧
    py_startswith (get_or context "decision_maker" (VStr "")) "human" = Ok b2 ∧
    human = VBool b.
Proof.
  unfold _has_human_authority.
  destruct (py_startswith (get_or context "consequence_bearer" _) _) as [b1|];
    [|done].
  cbn [mbind result_bind].
  destruct (py_startswith (get_or context "decision_maker" _) _) as [b2|];
    [|done].
  cbn [mbind result_bind]. intros [= <-]. by eexists b1, b2, _.
Qed.

(** What [encode] has computed when it returns. *)
Lemma encode_inv (context action : dict) (state : dict) :
  encode context action = Ok state →
  ∃ is_binding human violated_constraints,
    _is_binding_action action = Ok is_binding ∧
    _has_human_authority context = Ok (VBool human) ∧
    _check_constraint_violations context action = Ok violated_constraints ∧
    state =
      [("authority_level", get_or context "authority_level" (VStr "none"));
       ("requires_authority", get_or action "requires_authority" (VStr "none"));
       ("is_binding_action", is_binding);
       ("human_in_authority_chain", VBool human);
       ("consequence_bearer", get_or context "consequence_bearer" VNone);
       ("makes_decision", get_or action "makes_decision" (VBool false));
       ("hard_constraints", get_or context "hard_constraints" (VList []));
       ("violated_constraints", VList violated_constraints);
       ("makes_interpretation",
        get_or action "makes_interpretation" (VBool false));
       ("interpretation_authority",
        get_or context "interpretation_authority" (VBool false));
       ("affects_group",
        py_or (get_or action "affects_group" VNone)
              (get_or context "affects_group" VNone));
       ("decision_maker", get_or context "decision_maker" VNone);
       ("delegated_authority_from_affected",
        get_or context "delegated_authority_from_affected" (VBool false))].
Proof.
  unfold encode.
  destruct (_is_binding_action action) as [is_binding|]; [|done].
  cbn [mbind result_bind].
  destruct (_has_human_authority context) as [human|] eqn:Hhuman; [|done].
  cbn [mbind result_bind].
  destruct (_check_constraint_violations context action) as [violated_|];
    [|done].
  cbn [mbind result_bind]. intros [= <-].
  destruct (has_human_authority_inv context human Hhuman)
    as (_ & _ & b & _ & _ & ->).
  by exists is_binding, b, violated_.
Qed.

(** An identity read by [startswith] is absent or a text. *)
Lemma identity_absent_or_text (context : dict) (key : string) (b : bool) :
  py_startswith (get_or context key (VStr "")) "human" = Ok b →
  (dict_get key context = None ∧ get_or context key VNone = VNone) ∨
  (∃ s, dict_get key context = Some (VStr s) ∧
        get_or context key VNone = VStr s).
Proof.
  unfold get_or. destruct (dict_get key context) as [v|]; [|by left].
  destruct v; try done. intros _. right. by eexists.
Qed.

(** The fields of the encoded state, as the checks read them. *)
Lemma encode_fields (context action state : dict) :
  encode context action = Ok state →
  get_or state "consequence_bearer" VNone
  = get_or context "consequence_bearer" VNone ∧
  get_or state "makes_decision" (VBool false)
  = get_or action "makes_decision" (VBool false) ∧
  get_or state "makes_interpretation" (VBool false)
  = get_or action "makes_interpretation" (VBool false) ∧
  get_or state "interpretation_authority" (VBool false)
  = get_or context "interpretation_authority" (VBool false) ∧
  get_or state "affects_group" VNone
  = py_or (get_or action "affects_group" VNone)
          (get_or context "affects_group" VNone) ∧
  get_or state "decision_maker" VNone = get_or context "decision_maker" VNone ∧
  get_or state "delegated_authority_from_affected" (VBool false)
  = get_or context "delegated_authority_from_affected" (VBool false).
Proof.
  intros Hencode.
  destruct (encode_inv context action state Hencode)
    as (is_binding & human & violated_ & _ & _ & _ & ->).
  by split_and!.
Qed.

(** X14. Whenever [encode] returns, the state has exactly the thirteen
    fields, in their order; the human flag is a boolean and the violated
    constraints are a list; the consequence bearer and the decision maker of
    the state are [None] when the context has no such key and otherwise the
    text the context holds (the encoder has raised for any other value);
    and the type of the action is absent or a text. *)
Theorem encode_returns_a_complete_state (context action state : dict) :
  encode context action = Ok state →
  keys state
  = ["authority_level"; "requires_authority"; "is_binding_action";
     "human_in_authority_chain"; "consequence_bearer"; "makes_decision";
     "hard_constraints"; "violated_constraints"; "makes_interpretation";
     "interpretation_authority"; "affects_group"; "decision_maker";
     "delegated_authority_from_affected"] ∧
  (∃ b, dict_get "human_in_authority_chain" state = Some (VBool b)) ∧
  (∃ l, dict_get "violated_constraints" state = Some (VList l)) ∧
  ((dict_get "consequence_bearer" context = None ∧
    dict_get "consequence_bearer" state = Some VNone) ∨
   (∃ s, dict_get "consequence_bearer" context = Some (VStr s) ∧
         dict_get "consequence_bearer" state = Some (VStr s))) ∧
  ((dict_get "decision_maker" context = None ∧
    dict_get "decision_maker" state = Some VNone) ∨
   (∃ s, dict_get "decision_maker" context = Some (VStr s) ∧
         dict_get "decision_maker" state = Some (VStr s))) ∧
  (dict_get "type" action = None ∨ ∃ s, dict_get "type" action = Some (VStr s)).
Proof.
  intros Hencode.
  destruct (encode_inv context action state Hencode)
    as (is_binding & human & violated_ & Hbinding & Hhuman & _ & ->).
  destruct (has_human_authority_inv context _ Hhuman)
    as (b1 & b2 & _ & Hb1 & Hb2 & _).
  apply identity_absent_or_text in Hb1, Hb2.
  split; [done|]. split; [by eexists|]. split; [by eexists|].
  cbn [dict_get String.eqb Ascii.eqb Bool.eqb]. split_and!.
  - destruct Hb1 as [[? ->]|(s & ? & ->)]; [by left | right; by exists s].
  - destruct Hb2 as [[? ->]|(s & ? & ->)]; [by left | right; by exists s].
  - unfold _is_binding_action, get_or in Hbinding.
    destruct (dict_get "type" action) as [v|]; [|by left].
    destruct v; try done. right. by eexists.
Qed.

(** X15. An action whose type is a text that contains one of the words
    execute, commit, sign, approve, transfer, deploy, whatever the case of
    its letters and wherever in the text, is binding, whatever its
    [is_binding] flag; for a type that contains none of them the encoder
    gives the flag as the action has it ([False] when absent). *)
Theorem binding_types_are_matched_inside_the_type
    (action : dict) (type : string) :
  get_or action "type" (VStr "") = VStr type →
  ((∃ word, word ∈ binding_types ∧ mentions word type) →
   _is_binding_action action = Ok (VBool true)) ∧
  ((∀ word, word ∈ binding_types → ¬ mentions word type) →
   _is_binding_action action = Ok (get_or action "is_binding" (VBool false))).
Proof.
  intros Htype. unfold _is_binding_action. rewrite Htype.
  cbn [py_lower mbind result_bind]. split.
  - intros (word & Hword & Hmentions).
    assert (existsb (λ bt, contains bt (lower type)) binding_types = true) as ->.
    { apply existsb_exists. exists word.
      split; [by apply list_elem_of_In | by apply contains_lower_mentions]. }
    done.
  - intros Hnone.
    assert (existsb (λ bt, contains bt (lower type)) binding_types = false) as ->.
    { apply not_true_iff_false. intros (word & Hword & Hc)%existsb_exists.
      apply (Hnone word); [by apply list_elem_of_In|].
      by apply contains_lower_mentions. }
    done.
Qed.



Lemma scan_constraints_spec (action : dict) (hard violated out : list pyval) :
  scan_constraints action hard violated = Ok out →
  ∃ found,
    out = (violated ++ found)%list ∧ found `sublist_of` hard ∧
    ∀ c, c ∈ found →
         ∃ v, _action_violates_constraint action c = Ok v ∧ truthy v = true.
Proof.
  revert violated. induction hard as [|c hard IH]; intros violated; cbn.
  - intros [= <-]. exists []. rewrite app_nil_r. split_and!; [done..|].
    intros c Hc. by apply elem_of_nil in Hc.
  - destruct (_action_violates_constraint action c) as [v|] eqn:Hv; [|done].
    cbn [mbind result_bind]. intros Hout.
    apply IH in Hout as (found & -> & Hsub & Hfound).
    destruct (truthy v) eqn:Htruthy.
    + exists (c :: found). rewrite <- app_assoc.
      split_and!; [done | by apply sublist_skip |].
      intros c' [->|Hc']%elem_of_cons; [by exists v | by apply Hfound].
    + exists found. split_and!; [done | by apply sublist_cons | done].
Qed.

(** X17. The violated constraints the encoder finds are the elements the
    action declares under [violates_constraints], in their order, followed
    by hard constraints of the context, in their order: each of these the
    pattern check judged violated.  Without the key [violates_constraints]
    nothing is declared, and without hard constraints nothing is added. *)
Theorem violated_constraints_are_declared_or_hard
    (context action : dict) (violated_constraints : list pyval) :
  _check_constraint_violations context action = Ok violated_constraints →
  ∃ declared hard found,
    (if dict_mem "violates_constraints" action
     then py_iter (get_or action "violates_constraints" VNone) = Ok declared
     else declared = []) ∧
    py_iter (get_or context "hard_constraints" (VList [])) = Ok hard ∧
    violated_constraints = (declared ++ found)%list ∧
    found `sublist_of` hard ∧
    ∀ c, c ∈ found →
         ∃ v, _action_violates_constraint action c = Ok v ∧ truthy v = true.
Proof.
  unfold _check_constraint_violations. intros Hcheck.
  destruct (dict_mem "violates_constraints" action) eqn:Hmem.
  - destruct (py_iter (get_or action "violates_constraints" VNone))
      as [declared|]; cbn [mbind result_bind] in Hcheck; [|done].
    destruct (py_iter (get_or context "hard_constraints" (VList [])))
      as [hard|]; cbn [mbind result_bind] in Hcheck; [|done].
    apply scan_constraints_spec in Hcheck as (found & -> & Hsub & Hfound).
    by exists declared, hard, found.
  - cbn [mbind result_bind] in Hcheck.
    destruct (py_iter (get_or context "hard_constraints" (VList [])))
      as [hard|]; cbn [mbind result_bind] in Hcheck; [|done].
    apply scan_constraints_spec in Hcheck as (found & -> & Hsub & Hfound).
    by exists [], hard, found.
Qed.

(** X18. The encoder reads nine keys of the context and no other: two
    contexts that agree on authority_level, consequence_bearer,
    decision_maker, human_in_authority_chain, human_signature,
    hard_constraints, interpretation_authority, affects_group and
    delegated_authority_from_affected are encoded alike with every action,
    and so get the same verdict from every list of invariants. *)
Theorem encode_reads_nine_context_keys
    (context1 context2 action : dict) :
  (∀ key, key ∈ context_keys_read →
          dict_get key context1 = dict_get key context2) →
  encode context1 action = encode context2 action ∧
  ∀ invs, verdict invs context1 action = verdict invs context2 action.
Proof.
  intros Hsame.
  assert (∀ key default, key ∈ context_keys_read →
            get_or context1 key default = get_or context2 key default) as Hget.
  { intros key default Hkey. unfold get_or. by rewrite Hsame. }
  assert (encode context1 action = encode context2 action) as Hencode.
  { unfold encode, _has_human_authority, _check_constraint_violations.
    rewrite !(Hget "authority_level"), !(Hget "consequence_bearer"),
      !(Hget "decision_maker"), !(Hget "human_in_authority_chain"),
      !(Hget "human_signature"), !(Hget "hard_constraints"),
      !(Hget "interpretation_authority"), !(Hget "affects_group"),
      !(Hget "delegated_authority_from_affected")
      by (unfold context_keys_read; set_solver).
    done. }
  split; [done|]. intros invs. unfold verdict. by rewrite Hencode.
Qed.

End EncoderExtras.

(** ** The invariants, as [verify] reports them *)

Section InvariantExtras.
Context `{Builtins}.
Import Invariants Result GovernanceKernel.

Lemma default_name_among_violations (state : dict) (inv : Invariant) :
  inv ∈ _default_invariants →
  name inv ∈ name <$> filter (λ i, violated state i = true) _default_invariants
  ↔ violated state inv = true.
Proof.
  intros Hinv. rewrite list_elem_of_fmap. split.
  - intros (i & Hname & [Hviolated Hi]%list_elem_of_filter).
    unfold _default_invariants in Hinv, Hi.
    repeat (apply elem_of_cons in Hinv as [->|Hinv]);
      try (by apply elem_of_nil in Hinv);
      repeat (apply elem_of_cons in Hi as [->|Hi]);
      try (by apply elem_of_nil in Hi); try discriminate Hname; done.
  - intros Hviolated. exists inv. split; [done|].
    by apply list_elem_of_filter.
Qed.

(** What [verify] returns on a kernel with the six invariants when the
    encoder and the checks return. *)
Lemma verify_default_report (k : t) (context action : dict)
    (metadata : option dict) (env : Env) (state : dict) :
  kernel_wf k →
  invariants k = _default_invariants →
  StateEncoder.encode context action = Ok state →
  Forall (λ inv, returns (check inv state)) _default_invariants →
  ∃ k' r,
    verify k context action metadata env = (k', Ok r) ∧
    violations r
    = name <$> filter (λ i, violated state i = true) _default_invariants ∧
    allowed r = Nat.eqb (length (violations r)) 0 ∧
    (violations r ≠ [] →
     ∃ rem, remediation r = Some rem ∧
            HandlerRegistry.handle (violations r) context action = Ok rem).
Proof.
  intros Hwf Hdefault Hencode Hreturn.
  destruct (verify_cases k context action metadata env Hwf)
    as [(e & Hencode' & Hv)
       |(state' & counters & Hencode' & _ &
         [(e & Hcheck & Hv)
         |(vs & rem & Hcheck & Hrem & [[_ Hv]|(logger & _ & _ & Hv)])])];
    try congruence;
    assert (state' = state) as -> by congruence;
    unfold Verifier.check in Hcheck;
    rewrite check_from_filter in Hcheck by (by rewrite Hdefault);
    try done; injection Hcheck as <-; rewrite Hdefault in *;
    eexists _, _; (split; [exact Hv|]); cbn; (split_and!; [done | done |]);
    intros Hne;
    (destruct (Nat.eqb _ 0) eqn:Hempty;
     [by apply Nat.eqb_eq, nil_length_inv in Hempty|]);
    destruct Hrem as (r0 & Hr0 & ->); by exists r0.
Qed.

Lemma handle_bg1_first (violations : list string) (context action : dict) :
  "BG-1" ∈ violations →
  HandlerRegistry.handle violations context action
  = Ok (HandlerRegistry._handle_bg1 context action violations).
Proof.
  intros Hin. destruct violations as [|v violations];
    [by apply elem_of_nil in Hin|].
  unfold HandlerRegistry.handle, HandlerRegistry._prioritize_violations,
    HandlerRegistry.priority_order.
  rewrite first_occurring_first by (by apply occurs_elem_of). done.
Qed.

(** X19. On a kernel with the six invariants, when the encoder and the
    checks return: [verify] lists "BG-1" exactly when the action is binding
    and no human is in the authority chain; and whenever it lists "BG-1",
    the action is blocked and the remediation is the one of BG-1
    (require_human_authority, with the type of the action), whatever else
    is violated. *)
Theorem verify_reports_BG1_for_binding_without_human
    (k : t) (context action : dict) (metadata : option dict) (env : Env)
    (state : dict) :
  kernel_wf k →
  invariants k = _default_invariants →
  StateEncoder.encode context action = Ok state →
  Forall (λ inv, returns (check inv state)) _default_invariants →
  ∃ k' r,
    verify k context action metadata env = (k', Ok r) ∧
    ("BG-1" ∈ violations r ↔
     truthy (get_or state "is_binding_action" (VBool false)) = true ∧
     truthy (get_or state "human_in_authority_chain" (VBool false)) = false) ∧
    ("BG-1" ∈ violations r →
     allowed r = false ∧
     remediation r
     = Some [("action", VStr "require_human_authority");
             ("reason", VStr "Binding action requires human in authority chain");
             ("suggested_action",
              VStr "Obtain explicit human authorization before proceeding");
             ("binding_action_type", get_or action "type" VNone)]).
Proof.
  intros Hwf Hdefault Hencode Hreturn.
  destruct (verify_default_report k context action metadata env state
              Hwf Hdefault Hencode Hreturn)
    as (k' & r & Hv & Hviolations & Hallowed & Hrem).
  exists k', r. split; [done|]. split.
  - rewrite Hviolations.
    rewrite (default_name_among_violations state BG1_Invariant)
      by (unfold _default_invariants; set_solver).
    unfold violated. cbn [check BG1_Invariant]. unfold BG1_check.
    destruct (truthy (get_or state "is_binding_action" (VBool false)));
      cbn [negb truthy]; [|intuition congruence].
    rewrite negb_true_iff. intuition congruence.
  - intros Hin.
    assert (violations r ≠ []) as Hne.
    { intros Hnil. rewrite Hnil in Hin. by apply elem_of_nil in Hin. }
    split.
    + rewrite Hallowed. apply Nat.eqb_neq. intros Hlen.
      by apply nil_length_inv in Hlen.
    + destruct (Hrem Hne) as (rem & -> & Hhandle).
      rewrite handle_bg1_first in Hhandle by done. by injection Hhandle as <-.
Qed.

Lemma CMP1_violated_iff (context action state : dict) :
  StateEncoder.encode context action = Ok state →
  violated state CMP1_Invariant = true ↔
  truthy (get_or action "makes_decision" (VBool false)) = true ∧
  dict_get "consequence_bearer" context = None.
Proof.
  intros Hencode.
  destruct (encode_fields context action state Hencode)
    as (Hbearer & Hdecision & _).
  destruct (encode_inv context action state Hencode)
    as (is_binding & human & violated_ & _ & Hhuman & _ & _).
  destruct (has_human_authority_inv context _ Hhuman)
    as (b1 & _ & _ & Hb1 & _ & _).
  apply identity_absent_or_text in Hb1.
  unfold violated. cbn [check CMP1_Invariant]. unfold CMP1_check.
  rewrite Hbearer, Hdecision.
  destruct (truthy (get_or action "makes_decision" (VBool false)));
    cbn [negb truthy]; [|intuition congruence].
  destruct Hb1 as [[Habsent ->]|(s & Hpresent & ->)]; cbn;
    intuition congruence.
Qed.

Lemma MAP1_violated_iff (context action state : dict) :
  StateEncoder.encode context action = Ok state →
  violated state MAP1_Invariant = true ↔
  truthy (get_or action "makes_interpretation" (VBool false)) = true ∧
  truthy (get_or context "interpretation_authority" (VBool false)) = false.
Proof.
  intros Hencode.
  destruct (encode_fields context action state Hencode)
    as (_ & _ & Hmakes & Hauthority & _).
  unfold violated. cbn [check MAP1_Invariant]. unfold MAP1_check.
  rewrite Hmakes, Hauthority.
  destruct (truthy (get_or action "makes_interpretation" (VBool false)));
    cbn [negb truthy]; [|intuition congruence].
  rewrite negb_true_iff. intuition congruence.
Qed.

Lemma EXP1_violated_iff (context action state : dict) :
  StateEncoder.encode context action = Ok state →
  violated state EXP1_Invariant = true ↔
  truthy (py_or (get_or action "affects_group" VNone)
                (get_or context "affects_group" VNone)) = true ∧
  truthy (get_or context "decision_maker" VNone) = true ∧
  py_eq (py_or (get_or action "affects_group" VNone)
               (get_or context "affects_group" VNone))
        (get_or context "decision_maker" VNone) = false ∧
  truthy (get_or context "delegated_authority_from_affected" (VBool false))
  = false.
Proof.
  intros Hencode.
  destruct (encode_fields context action state Hencode)
    as (_ & _ & _ & _ & Hgroup & Hmaker & Hdelegated).
  unfold violated. cbn [check EXP1_Invariant]. unfold EXP1_check.
  rewrite Hgroup, Hmaker, Hdelegated.
  set (group := py_or (get_or action "affects_group" VNone)
                      (get_or context "affects_group" VNone)).
  set (maker := get_or context "decision_maker" VNone).
  set (delegated :=
         get_or context "delegated_authority_from_affected" (VBool false)).
  unfold py_and.
  destruct (truthy group) eqn:Htg;
    [|rewrite Htg; cbn [negb truthy]; intuition congruence].
  destruct (truthy maker) eqn:Htm; cbn [negb truthy]; [|intuition congruence].
  unfold py_or. destruct (py_eq group maker); cbn [truthy negb];
    [intuition congruence|].
  rewrite negb_true_iff. intuition congruence.
Qed.

(** X20. On a kernel with the six invariants, when the encoder and the
    checks return, [verify] lists "CMP-1" exactly when the action makes a
    decision and the context has no key consequence_bearer; "MAP-1" exactly
    when the action makes an interpretation and the context grants no
    interpretation authority; and "EXP-1" exactly when an affected group
    (of the action, or else of the context) and a decision maker are both
    given, differ, and the context records no delegation. *)
Theorem verify_reports_the_pairing_invariants
    (k : t) (context action : dict) (metadata : option dict) (env : Env)
    (state : dict) :
  kernel_wf k →
  invariants k = _default_invariants →
  StateEncoder.encode context action = Ok state →
  Forall (λ inv, returns (check inv state)) _default_invariants →
  ∃ k' r,
    verify k context action metadata env = (k', Ok r) ∧
    ("CMP-1" ∈ violations r ↔
     truthy (get_or action "makes_decision" (VBool false)) = true ∧
     dict_get "consequence_bearer" context = None) ∧
    ("MAP-1" ∈ violations r ↔
     truthy (get_or action "makes_interpretation" (VBool false)) = true ∧
     truthy (get_or context "interpretation_authority" (VBool false)) = false) ∧
    ("EXP-1" ∈ violations r ↔
     truthy (py_or (get_or action "affects_group" VNone)
                   (get_or context "affects_group" VNone)) = true ∧
     truthy (get_or context "decision_maker" VNone) = true ∧
     py_eq (py_or (get_or action "affects_group" VNone)
                  (get_or context "affects_group" VNone))
           (get_or context "decision_maker" VNone) = false ∧
     truthy (get_or context "delegated_authority_from_affected" (VBool false))
     = false).
Proof.
  intros Hwf Hdefault Hencode Hreturn.
  destruct (verify_default_report k context action metadata env state
              Hwf Hdefault Hencode Hreturn)
    as (k' & r & Hv & Hviolations & _).
  exists k', r. split; [done|]. rewrite Hviolations. split_and!.
  - rewrite (default_name_among_violations state CMP1_Invariant)
      by (unfold _default_invariants; set_solver).
    by apply CMP1_violated_iff.
  - rewrite (default_name_among_violations state MAP1_Invariant)
      by (unfold _default_invariants; set_solver).
    by apply MAP1_violated_iff.
  - rewrite (default_name_among_violations state EXP1_Invariant)
      by (unfold _default_invariants; set_solver).
    by apply EXP1_violated_iff.
Qed.

End InvariantExtras.

Section AuthorityExtras.
Import Invariants.

Lemma authorityRank_unranked (level : pyval) :
  (∀ s, level = VStr s → s ≠ "advisory" ∧ s ≠ "binding" ∧ s ≠ "autonomous") →
  authorityRank level = 0.
Proof.
  intros Hunranked. destruct level as [| | |s| |]; try done.
  destruct (Hunranked s eq_refl) as (? & ? & ?).
  unfold authorityRank. by repeat case_decide.
Qed.

(** X21. AIT-1 ranks every level that is not "advisory", "binding" or
    "autonomous" with "none".  So a requirement that names none of the
    three is granted to every system; and a system whose level names none
    of the three is refused every requirement that names one of them. *)
Theorem AIT1_ranks_unknown_levels_with_none (state : dict) :
  hashable (get_or state "authority_level" (VStr "none")) = true →
  hashable (get_or state "requires_authority" (VStr "none")) = true →
  ((∀ s, get_or state "requires_authority" (VStr "none") = VStr s →
         s ≠ "advisory" ∧ s ≠ "binding" ∧ s ≠ "autonomous") →
   AIT1_check state = Ok (VBool true)) ∧
  ((∀ s, get_or state "authority_level" (VStr "none") = VStr s →
         s ≠ "advisory" ∧ s ≠ "binding" ∧ s ≠ "autonomous") →
   (∃ s, get_or state "requires_authority" (VStr "none") = VStr s ∧
         (s = "advisory" ∨ s = "binding" ∨ s = "autonomous")) →
   AIT1_check state = Ok (VBool false)).
Proof.
  intros Hgranted Hrequired. unfold AIT1_check.
  rewrite (authority_rank_spec _ Hgranted), (authority_rank_spec _ Hrequired).
  cbn [mbind result_bind]. split.
  - intros Hunranked. rewrite (authorityRank_unranked _ Hunranked).
    assert (0 ≤ authorityRank (get_or state "authority_level" (VStr "none")))%Z.
    { unfold authorityRank. destruct (get_or state "authority_level" _);
        try done. repeat case_decide; lia. }
    do 2 f_equal. by apply Z.leb_le.
  - intros Hunranked (s & -> & Hs). rewrite (authorityRank_unranked _ Hunranked).
    do 2 f_equal. apply Z.leb_gt.
    destruct Hs as [-> | [-> | ->]]; by vm_compute.
Qed.

End AuthorityExtras.

(** ** The audit logger *)

Section LoggerExtras.
Context `{Builtins}.
Import Result AuditLogger.

Lemma scrub_scrub (field : string * pyval) : scrub (scrub field) = scrub field.
Proof. destruct field as [k v]. unfold scrub. cbn. by destruct (sensitive k). Qed.

(** X22. Sanitizing is idempotent: a sanitized dictionary passes through
    the sanitizer unchanged. *)
Theorem sanitize_is_idempotent (data : dict) :
  NoDup (keys data) → _sanitize (_sanitize data) = _sanitize data.
Proof.
  intros Hnodup. rewrite (sanitize_map data Hnodup).
  rewrite sanitize_map.
  - rewrite <- list_fmap_compose. apply list_fmap_ext.
    intros i field _. apply scrub_scrub.
  - unfold keys. by rewrite <- list_fmap_compose.
Qed.

Lemma chain_head_link (entry : dict) (rest : list dict) (p : pyval) :
  verify_chain_from (entry :: rest) p = Ok true →
  ∃ recorded,
    dict_get "previous_hash" entry = Some recorded ∧ py_eq recorded p = true ∧
    verify_chain_from rest (VStr (_calculate_hash entry)) = Ok true.
Proof.
  cbn [verify_chain_from].
  destruct (dict_get "previous_hash" entry) as [recorded|]; [|done].
  destruct (py_eq recorded p) eqn:Hlink; [|done]. cbn [negb].
  destruct (dict_get "hash" entry) as [stored|]; [|done].
  destruct (py_eq (VStr (_calculate_hash entry)) stored) eqn:Heq; [|done].
  cbn [negb]. intros Hrest. exists recorded. split_and!; [done..|].
  destruct stored; cbn in Heq; try done.
  by apply String.eqb_eq in Heq as ->.
Qed.

Lemma tip_of_valid (entries : list dict) (p : pyval) :
  verify_chain_from entries p = Ok true → entries ≠ [] →
  ∃ h, tip entries p = VStr h.
Proof.
  revert p. induction entries as [|entry entries IH]; intros p Hchain Hne;
    [done|].
  pose proof (chain_head _ _ _ Hchain) as (_ & _ & Hhash).
  apply chain_head_link in Hchain as (recorded & _ & _ & Hrest).
  cbn [tip]. unfold get_or. rewrite Hhash.
  destruct entries as [|entry' entries]; [by eexists|].
  by apply IH.
Qed.

(** X23. [verify_chain] never looks at the end of the chain: of a log
    that verifies, every initial part verifies too, so the loss of the last
    entries of the log goes unnoticed. *)
Theorem verify_chain_accepts_a_truncated_log (self : t) (n : nat) :
  verify_chain self = Ok true →
  verify_chain (with_logs self (take n (logs self))) = Ok true.
Proof.
  unfold verify_chain. cbn [logs with_logs]. intros Hchain.
  rewrite <- (take_drop n (logs self)) in Hchain.
  by apply chain_prefix in Hchain.
Qed.

(** X24. The loss of the first entries is noticed: when a log verifies
    and some, but not all, of its first entries are dropped, [verify_chain]
    returns false (the first entry left records the hash of its
    predecessor, where [None] is expected). *)
Theorem verify_chain_rejects_a_beheaded_log (self : t) (n : nat) :
  verify_chain self = Ok true →
  (0 < n < length (logs self))%nat →
  verify_chain (with_logs self (drop n (logs self))) = Ok false.
Proof.
  unfold verify_chain. cbn [logs with_logs]. intros Hchain [Hpos Hlt].
  rewrite <- (take_drop n (logs self)) in Hchain.
  pose proof (chain_prefix _ _ _ Hchain) as Hprefix.
  rewrite chain_app in Hchain by done.
  destruct (tip_of_valid (take n (logs self)) VNone Hprefix) as [h Hh].
  { intros Hnil. apply (f_equal length) in Hnil.
    rewrite length_take in Hnil. cbn in Hnil. lia. }
  rewrite Hh in Hchain.
  destruct (drop n (logs self)) as [|entry rest] eqn:Hdrop.
  { apply (f_equal length) in Hdrop. rewrite length_drop in Hdrop.
    cbn in Hdrop. lia. }
  apply chain_head_link in Hchain as (recorded & Hrecorded & Hlink & _).
  cbn [verify_chain_from]. rewrite Hrecorded.
  destruct recorded; cbn in Hlink; try done.
Qed.

(** X25. The chain is no signature: when a log verifies, its last entry
    can be replaced by any entry that records the same previous hash and
    stores its own recomputed hash, and [verify_chain] still returns
    true. *)
Theorem verify_chain_accepts_a_rehashed_last_entry
    (self : t) (earlier : list dict) (entry entry' : dict) :
  logs self = (earlier ++ [entry])%list →
  verify_chain self = Ok true →
  dict_get "previous_hash" entry' = dict_get "previous_hash" entry →
  dict_get "hash" entry' = Some (VStr (_calculate_hash entry')) →
  verify_chain (with_logs self (earlier ++ [entry'])) = Ok true.
Proof.
  unfold verify_chain. cbn [logs with_logs]. intros -> Hchain Hprevious Hhash.
  pose proof (chain_prefix _ _ _ Hchain) as Hprefix.
  rewrite chain_app in Hchain by done. rewrite chain_app by done.
  apply chain_head_link in Hchain as (recorded & Hrecorded & Hlink & _).
  cbn [verify_chain_from]. rewrite Hprevious, Hrecorded, Hlink, Hhash.
  cbn [negb py_eq]. by rewrite String.eqb_refl.
Qed.

End LoggerExtras.

(** ** Retrieval from the audit log *)

Section RetrievalExtras.
Context `{Builtins} `{Datetimes}.
Import Result AuditLogger.

Lemma bind_Ok {A B : Type} (m : result A) (f : A → result B) (b : B) :
  m ≫= f = Ok b → ∃ a, m = Ok a ∧ f a = Ok b.
Proof. destruct m as [a|]; [by exists a | done]. Qed.

Lemma Forall_of_sublist {A : Type} (P : A → Prop) (kept l : list A) :
  kept `sublist_of` l → Forall P l → Forall P kept.
Proof.
  intros Hsub. rewrite !Forall_forall. intros Hall x Hx.
  apply Hall. by eapply elem_of_sublist.
Qed.

Lemma filter_r_total {A : Type} (keep : A → result bool) (f : A → bool)
    (l : list A) :
  (∀ x, x ∈ l → keep x = Ok (f x)) →
  filter_r keep l = Ok (filter (λ x, f x = true) l).
Proof.
  induction l as [|x l IH]; intros Hkeep; [done|].
  cbn [filter_r]. rewrite (Hkeep x) by apply list_elem_of_here.
  rewrite IH by (intros y Hy; apply Hkeep; by apply list_elem_of_further).
  rewrite filter_cons. unfold mbind, result_bind.
  destruct (f x); by case_decide.
Qed.

Lemma filter_r_sublist {A : Type} (keep : A → result bool) (l kept : list A) :
  filter_r keep l = Ok kept →
  kept `sublist_of` l ∧ Forall (λ x, keep x = Ok true) kept.
Proof.
  revert kept. induction l as [|x l IH]; intros kept; cbn [filter_r].
  - intros [= <-]. split; [done | apply Forall_nil_2].
  - destruct (keep x) as [k|] eqn:Hk; [|done]. cbn.
    destruct (filter_r keep l) as [rest|]; [|done]. cbn.
    destruct (IH rest eq_refl) as [Hsub Hall].
    destruct k; intros [= <-].
    + split; [by apply sublist_skip | by apply Forall_cons].
    + split; [by apply sublist_cons | done].
Qed.

Lemma logged_entry_outcome (self : t) (context action : dict)
    (result : VerificationResult) (metadata : option dict) (uuid now : string) :
  ∃ entry,
    logs (log_verification self context action result metadata uuid now).1
    = (logs self ++ [entry])%list ∧
    entry_allowed entry = Ok (VBool (allowed result)).
Proof.
  eexists. split; [reflexivity|].
  unfold entry_allowed, py_getitem.
  rewrite dict_get_set_ne by done. reflexivity.
Qed.

Lemma log_all_outcomes (self : t) (calls : list LogCall) :
  ∃ entries,
    logs (log_all self calls) = (logs self ++ entries)%list ∧
    Forall2 (λ entry c, entry_allowed entry = Ok (VBool (allowed (call_result c))))
      entries calls.
Proof.
  revert self. induction calls as [|c calls IH]; intros self.
  - exists []. split; [by rewrite app_nil_r | constructor].
  - destruct (logged_entry_outcome self (call_context c) (call_action c)
                (call_result c) (call_metadata c) (call_uuid c) (call_now c))
      as (entry & Hlogs & Hentry).
    destruct (IH (log_verification self (call_context c) (call_action c)
                    (call_result c) (call_metadata c) (call_uuid c)
                    (call_now c)).1) as (entries & Hall & Hentries).
    exists (entry :: entries). split; [|by constructor].
    change (log_all self (c :: calls))
      with (log_all (log_verification self (call_context c) (call_action c)
                       (call_result c) (call_metadata c) (call_uuid c)
                       (call_now c)).1 calls).
    rewrite Hall, Hlogs. by rewrite <- app_assoc.
Qed.

(** X26. On a log written by [log_verification], [get_logs] without time
    bounds never raises: without a flag it returns the whole log, with
    [allowed_only] the entries of the allowed calls, with [blocked_only]
    those of the blocked calls, each in the order of the log, and with both
    flags the empty list.  Entry by entry, the log stores the outcome of
    the call that wrote it. *)
Theorem get_logs_splits_the_log_by_outcome
    (file : option string) (calls : list LogCall) :
  let self := log_all (init file) calls in
  get_logs self None None false false = Ok (logs self) ∧
  get_logs self None None true false
  = Ok (filter (λ entry, stored_allowed entry = true) (logs self)) ∧
  get_logs self None None false true
  = Ok (filter (λ entry, negb (stored_allowed entry) = true) (logs self)) ∧
  get_logs self None None true true = Ok [] ∧
  Forall2 (λ entry c, stored_allowed entry = allowed (call_result c))
    (logs self) calls.
Proof.
  intros self.
  destruct (log_all_outcomes (init file) calls) as (entries & Hlogs & Hentries).
  cbn [logs init app] in Hlogs. fold self in Hlogs.
  assert (∀ entry, entry ∈ logs self →
            entry_allowed entry = Ok (VBool (stored_allowed entry))) as Hstored.
  { intros entry Hentry. rewrite Hlogs in Hentry.
    apply list_elem_of_lookup in Hentry as [i Hi].
    destruct (Forall2_lookup_l _ _ _ _ _ Hentries Hi) as (c & _ & Hc).
    unfold stored_allowed. by rewrite Hc. }
  assert (filter_r (λ log, a ← entry_allowed log; Ok (truthy a)) (logs self)
          = Ok (filter (λ entry, stored_allowed entry = true) (logs self)))
    as Hallowed.
  { apply filter_r_total. intros entry Hentry. by rewrite (Hstored entry Hentry). }
  assert (∀ l, l ⊆ logs self →
            filter_r (λ log, a ← entry_allowed log; Ok (negb (truthy a))) l
            = Ok (filter (λ entry, negb (stored_allowed entry) = true) l))
    as Hblocked.
  { intros l Hl. apply filter_r_total. intros entry Hentry.
    by rewrite (Hstored entry (Hl _ Hentry)). }
  unfold get_logs. cbn [mbind result_bind]. split_and!.
  - done.
  - by rewrite Hallowed.
  - by apply Hblocked.
  - rewrite Hallowed. cbn [mbind result_bind]. rewrite Hblocked.
    + f_equal. clear.
      induction (logs self) as [|entry l IH]; [done|].
      rewrite filter_cons. case_decide as Hkeep.
      * rewrite filter_cons_False; [exact IH|]. by rewrite Hkeep.
      * exact IH.
    + intros entry Hentry. by apply list_elem_of_filter in Hentry as [_ ?].
  - rewrite Hlogs. eapply Forall2_impl; [exact Hentries|].
    intros entry c Hc. unfold stored_allowed. by rewrite Hc.
Qed.

(** X27. Whatever the log holds and whatever the filters, a call of
    [get_logs] that returns gives entries of the log, in the order of the
    log and none twice as often as the log has it; with [allowed_only]
    every entry returned stores a true outcome, with [blocked_only] a false
    one, and with both flags nothing is returned. *)
Theorem get_logs_returns_matching_entries_of_the_log
    (self : t) (start_time end_time : option datetime)
    (allowed_only blocked_only : bool) (found : list dict) :
  get_logs self start_time end_time allowed_only blocked_only = Ok found →
  found `sublist_of` logs self ∧
  (allowed_only = true →
   Forall (λ entry, ∃ a, entry_allowed entry = Ok a ∧ truthy a = true) found) ∧
  (blocked_only = true →
   Forall (λ entry, ∃ a, entry_allowed entry = Ok a ∧ truthy a = false) found) ∧
  (allowed_only = true → blocked_only = true → found = []).
Proof.
  intros Hget. unfold get_logs in Hget.
  apply bind_Ok in Hget as (l1 & H1 & Hget).
  apply bind_Ok in Hget as (l2 & H2 & Hget).
  apply bind_Ok in Hget as (l3 & H3 & H4).
  assert (l1 `sublist_of` logs self) as Hsub1.
  { destruct start_time; [by apply filter_r_sublist in H1 as [? _]|].
    by injection H1 as <-. }
  assert (l2 `sublist_of` l1) as Hsub2.
  { destruct end_time; [by apply filter_r_sublist in H2 as [? _]|].
    by injection H2 as <-. }
  assert (l3 `sublist_of` l2 ∧
          (allowed_only = true →
           Forall (λ entry, ∃ a, entry_allowed entry = Ok a ∧ truthy a = true)
             l3)) as [Hsub3 Hall3].
  { destruct allowed_only; [|injection H3 as <-; by split].
    apply filter_r_sublist in H3 as [Hsub Hall]. split; [done|]. intros _.
    eapply Forall_impl; [exact Hall|]. intros entry Hentry. cbn in Hentry.
    apply bind_Ok in Hentry as (a & Ha & [= Hta]). eauto. }
  assert (found `sublist_of` l3 ∧
          (blocked_only = true →
           Forall (λ entry, ∃ a, entry_allowed entry = Ok a ∧ truthy a = false)
             found)) as [Hsub4 Hall4].
  { destruct blocked_only; [|injection H4 as <-; by split].
    apply filter_r_sublist in H4 as [Hsub Hall]. split; [done|]. intros _.
    eapply Forall_impl; [exact Hall|]. intros entry Hentry. cbn in Hentry.
    apply bind_Ok in Hentry as (a & Ha & [= Hta]).
    exists a. split; [done|]. by destruct (truthy a). }
  split_and!.
  - by repeat (etrans; [eassumption|]).
  - intros Hflag. eapply Forall_of_sublist; [exact Hsub4 | by apply Hall3].
  - done.
  - intros Hyes_flag Hno_flag. destruct found as [|entry found]; [done|].
    pose proof (Forall_of_sublist _ _ _ Hsub4 (Hall3 Hyes_flag)) as Hfound_yes.
    pose proof (Hall4 Hno_flag) as Hfound_no.
    apply Forall_cons in Hfound_yes as [(a & Ha & Hta) _].
    apply Forall_cons in Hfound_no as [(a' & Ha' & Hta') _].
    congruence.
Qed.

End RetrievalExtras.

(** ** The function [verify] of the module *)

Section ConvenienceExtras.
Context `{Builtins}.
Import Invariants Result GovernanceKernel.


End ConvenienceExtras.

(** * Instances of the further properties *)

Lemma verify_result_shape_witness :
  kernel_wf (GovernanceKernel.init None true true) ∧
  (@GovernanceKernel.verify plain_runtime (GovernanceKernel.init None true true)
     trade_context trade_action None plain_env).2 = Ok trade_result ∧
  Result.timestamp trade_result
  = Some (GovernanceKernel.utcnow_result plain_env) ∧
  Result.audit_id trade_result = Some (GovernanceKernel.uuid4 plain_env) ∧
  Result.allowed trade_result = false.
Proof.
  assert (kernel_wf (GovernanceKernel.init None true true)) as Hwf
    by apply init_wf.
  assert ((@GovernanceKernel.verify plain_runtime
             (GovernanceKernel.init None true true)
             trade_context trade_action None plain_env).2 = Ok trade_result)
    as Hverify by (vm_compute; reflexivity).
  destruct (@verify_result_shape plain_runtime
              (GovernanceKernel.init None true true) trade_context trade_action
              None plain_env trade_result Hwf Hverify)
    as (Htime & _ & Hid & Hallowed & _).
  split; [exact Hwf|]. split; [exact Hverify|]. split; [exact Htime|].
  split; [exact Hid | exact Hallowed].
Defined.




Lemma verify_appends_one_audit_entry_witness :
  kernel_wf (GovernanceKernel.init None true true) ∧
  GovernanceKernel.enable_audit (GovernanceKernel.init None true true) = true ∧
  ∃ entry,
    audit_log (@GovernanceKernel.verify plain_runtime
                 (GovernanceKernel.init None true true)
                 trade_context trade_action None plain_env).1 = [entry] ∧
    dict_get "audit_id" entry
    = Some (VStr "00000000-0000-4000-8000-000000000000").
Proof.
  assert (kernel_wf (GovernanceKernel.init None true true)) as Hwf
    by apply init_wf.
  assert ((@GovernanceKernel.verify plain_runtime
             (GovernanceKernel.init None true true)
             trade_context trade_action None plain_env).2 = Ok trade_result)
    as Hverify by (vm_compute; reflexivity).
  pose proof (@verify_appends_one_audit_entry plain_runtime
                (GovernanceKernel.init None true true) trade_context
                trade_action None plain_env Hwf eq_refl) as Hentry.
  rewrite Hverify in Hentry. destruct Hentry as (entry & Hlog & _ & Hid & _).
  split; [exact Hwf|]. split; [reflexivity|].
  exists entry. split; [exact Hlog | exact Hid].
Defined.

Lemma stats_total_is_allowed_plus_blocked_witness :
  @reachable plain_runtime
    (@GovernanceKernel.verify plain_runtime (GovernanceKernel.init None true true)
       trade_context trade_action None plain_env).1 ∧
  GovernanceKernel.total_verifications
    (GovernanceKernel.stats
       (@GovernanceKernel.verify plain_runtime
          (GovernanceKernel.init None true true)
          trade_context trade_action None plain_env).1)
  = (GovernanceKernel.allowed_count
       (GovernanceKernel.stats
          (@GovernanceKernel.verify plain_runtime
             (GovernanceKernel.init None true true)
             trade_context trade_action None plain_env).1)
     + GovernanceKernel.blocked
         (GovernanceKernel.stats
            (@GovernanceKernel.verify plain_runtime
               (GovernanceKernel.init None true true)
               trade_context trade_action None plain_env).1))%nat.
Proof.
  assert (@reachable plain_runtime
            (@GovernanceKernel.verify plain_runtime
               (GovernanceKernel.init None true true)
               trade_context trade_action None plain_env).1) as Hreach
    by apply reachable_verify, reachable_init.
  split; [exact Hreach|].
  exact (@stats_total_is_allowed_plus_blocked plain_runtime _ Hreach).
Defined.



Lemma verify_lists_violations_in_invariant_order_witness :
  kernel_wf (GovernanceKernel.init None true true) ∧
  (@GovernanceKernel.verify plain_runtime (GovernanceKernel.init None true true)
     trade_context trade_action None plain_env).2 = Ok trade_result ∧
  Result.violations trade_result
    `sublist_of` Invariants.name
                 <$> GovernanceKernel.invariants
                       (GovernanceKernel.init None true true).
Proof.
  assert (kernel_wf (GovernanceKernel.init None true true)) as Hwf
    by apply init_wf.
  assert ((@GovernanceKernel.verify plain_runtime
             (GovernanceKernel.init None true true)
             trade_context trade_action None plain_env).2 = Ok trade_result)
    as Hverify by (vm_compute; reflexivity).
  destruct (@verify_lists_violations_in_invariant_order plain_runtime
              (GovernanceKernel.init None true true) trade_context trade_action
              None plain_env trade_result Hwf Hverify) as [Hsub _].
  split; [exact Hwf|]. split; [exact Hverify | exact Hsub].
Defined.

Lemma explain_reports_the_verification_witness :
  kernel_wf (GovernanceKernel.init None true true) ∧
  NoDup (Invariants.name
         <$> GovernanceKernel.invariants (GovernanceKernel.init None true true)) ∧
  (@GovernanceKernel.explain plain_runtime (λ inv _ _, Invariants.description inv)
     (GovernanceKernel.init None true true) trade_context trade_action
     plain_env).1
  = (@GovernanceKernel.verify plain_runtime (GovernanceKernel.init None true true)
       trade_context trade_action None plain_env).1.
Proof.
  assert (kernel_wf (GovernanceKernel.init None true true)) as Hwf
    by apply init_wf.
  assert (NoDup (Invariants.name
                 <$> GovernanceKernel.invariants
                       (GovernanceKernel.init None true true))) as Hnames
    by (apply (bool_decide_unpack _); vm_compute; exact I).
  destruct (@explain_reports_the_verification plain_runtime
              (λ inv _ _, Invariants.description inv)
              (GovernanceKernel.init None true true) trade_context trade_action
              plain_env Hwf Hnames) as [Hkernel _].
  split; [exact Hwf|]. split; [exact Hnames | exact Hkernel].
Defined.

Lemma encode_returns_a_complete_state_witness :
  StateEncoder.encode trade_context trade_action = Ok trade_state ∧
  keys trade_state
  = ["authority_level"; "requires_authority"; "is_binding_action";
     "human_in_authority_chain"; "consequence_bearer"; "makes_decision";
     "hard_constraints"; "violated_constraints"; "makes_interpretation";
     "interpretation_authority"; "affects_group"; "decision_maker";
     "delegated_authority_from_affected"].
Proof.
  assert (StateEncoder.encode trade_context trade_action = Ok trade_state)
    as Hencode by reflexivity.
  destruct (encode_returns_a_complete_state trade_context trade_action
              trade_state Hencode) as [Hkeys _].
  split; [exact Hencode | exact Hkeys].
Defined.

Lemma binding_types_are_matched_inside_the_type_witness :
  get_or [("type", VStr "Pre-Approved"); ("is_binding", VBool false)] "type"
    (VStr "") = VStr "Pre-Approved" ∧
  StateEncoder._is_binding_action
    [("type", VStr "Pre-Approved"); ("is_binding", VBool false)]
  = Ok (VBool true).
Proof.
  assert (get_or [("type", VStr "Pre-Approved"); ("is_binding", VBool false)]
            "type" (VStr "") = VStr "Pre-Approved") as Htype by reflexivity.
  destruct (binding_types_are_matched_inside_the_type
              [("type", VStr "Pre-Approved"); ("is_binding", VBool false)]
              "Pre-Approved" Htype) as [Hbinding _].
  split; [exact Htype|]. apply Hbinding.
  exists "approve". split.
  - unfold StateEncoder.binding_types.
    do 3 apply list_elem_of_further. apply list_elem_of_here.
  - exists "Pre-", "Approve", "d". split; reflexivity.
Defined.


Lemma violated_constraints_are_declared_or_hard_witness :
  StateEncoder._check_constraint_violations hazmat_context hazmat_action
  = Ok [VStr "no_residential_hazmat"] ∧
  ∃ declared hard found,
    py_iter (get_or hazmat_context "hard_constraints" (VList [])) = Ok hard ∧
    [VStr "no_residential_hazmat"] = (declared ++ found)%list ∧
    found `sublist_of` hard.
Proof.
  assert (StateEncoder._check_constraint_violations hazmat_context hazmat_action
          = Ok [VStr "no_residential_hazmat"]) as Hfound by reflexivity.
  destruct (violated_constraints_are_declared_or_hard hazmat_context
              hazmat_action [VStr "no_residential_hazmat"] Hfound)
    as (declared & hard & found & _ & Hhard & Happ & Hsub & _).
  split; [exact Hfound|]. exists declared, hard, found.
  split; [exact Hhard|]. split; [exact Happ | exact Hsub].
Defined.

Lemma encode_reads_nine_context_keys_witness :
  Forall (λ key, dict_get key trade_context
                 = dict_get key (trade_context ++ logistics_context)%list)
    context_keys_read ∧
  StateEncoder.encode trade_context trade_action
  = StateEncoder.encode (trade_context ++ logistics_context)%list trade_action.
Proof.
  assert (Forall (λ key, dict_get key trade_context
                         = dict_get key (trade_context ++ logistics_context)%list)
            context_keys_read) as Hagree.
  { unfold context_keys_read.
    repeat (apply Forall_cons; split; [reflexivity|]). apply Forall_nil_2. }
  split; [exact Hagree|].
  apply (encode_reads_nine_context_keys trade_context
           (trade_context ++ logistics_context)%list trade_action).
  intros key Hkey. revert key Hkey. apply Forall_forall. exact Hagree.
Defined.

Lemma verify_reports_BG1_for_binding_without_human_witness :
  kernel_wf (GovernanceKernel.init None true true) ∧
  GovernanceKernel.invariants (GovernanceKernel.init None true true)
  = GovernanceKernel._default_invariants ∧
  StateEncoder.encode trade_context trade_action = Ok trade_state ∧
  Forall (λ inv, returns (Invariants.check inv trade_state))
         GovernanceKernel._default_invariants ∧
  ∃ k' r,
    @GovernanceKernel.verify plain_runtime (GovernanceKernel.init None true true)
      trade_context trade_action None plain_env = (k', Ok r) ∧
    "BG-1" ∈ Result.violations r ∧
    Result.allowed r = false.
Proof.
  assert (kernel_wf (GovernanceKernel.init None true true)) as Hwf
    by apply init_wf.
  assert (StateEncoder.encode trade_context trade_action = Ok trade_state)
    as Hencode by reflexivity.
  assert (Forall (λ inv, returns (Invariants.check inv trade_state))
            GovernanceKernel._default_invariants) as Hreturn.
  { unfold GovernanceKernel._default_invariants.
    repeat (apply Forall_cons; split; [unfold returns; eexists; reflexivity|]).
    apply Forall_nil_2. }
  destruct (@verify_reports_BG1_for_binding_without_human plain_runtime
              (GovernanceKernel.init None true true) trade_context trade_action
              None plain_env trade_state Hwf eq_refl Hencode Hreturn)
    as (k' & r & Hverify & Hiff & Hblocked).
  assert ("BG-1" ∈ Result.violations r) as Hlisted
    by (apply Hiff; split; reflexivity).
  split; [exact Hwf|]. split; [reflexivity|]. split; [exact Hencode|].
  split; [exact Hreturn|].
  exists k', r. split; [exact Hverify|]. split; [exact Hlisted|].
  exact (proj1 (Hblocked Hlisted)).
Defined.

Lemma verify_reports_the_pairing_invariants_witness :
  kernel_wf (GovernanceKernel.init None true true) ∧
  GovernanceKernel.invariants (GovernanceKernel.init None true true)
  = GovernanceKernel._default_invariants ∧
  ∃ state,
    StateEncoder.encode [("decision_maker", VStr "board")]
      [("makes_decision", VBool true); ("affects_group", VStr "tenants")]
    = Ok state ∧
    Forall (λ inv, returns (Invariants.check inv state))
           GovernanceKernel._default_invariants ∧
    ∃ k' r,
      @GovernanceKernel.verify plain_runtime
        (GovernanceKernel.init None true true)
        [("decision_maker", VStr "board")]
        [("makes_decision", VBool true); ("affects_group", VStr "tenants")]
        None plain_env = (k', Ok r) ∧
      "CMP-1" ∈ Result.violations r ∧ "EXP-1" ∈ Result.violations r ∧
      "MAP-1" ∉ Result.violations r.
Proof.
  assert (kernel_wf (GovernanceKernel.init None true true)) as Hwf
    by apply init_wf.
  split; [exact Hwf|]. split; [reflexivity|].
  eexists. split; [vm_compute; reflexivity|].
  assert (StateEncoder.encode [("decision_maker", VStr "board")]
            [("makes_decision", VBool true); ("affects_group", VStr "tenants")]
          = Ok [("authority_level", VStr "none");
                ("requires_authority", VStr "none");
                ("is_binding_action", VBool false);
                ("human_in_authority_chain", VBool false);
                ("consequence_bearer", VNone);
                ("makes_decision", VBool true);
                ("hard_constraints", VList []);
                ("violated_constraints", VList []);
                ("makes_interpretation", VBool false);
                ("interpretation_authority", VBool false);
                ("affects_group", VStr "tenants");
                ("decision_maker", VStr "board");
                ("delegated_authority_from_affected", VBool false)])
    as Hencode by reflexivity.
  match goal with
  | |- Forall ?P ?l ∧ _ => assert (Forall P l) as Hreturn
  end.
  { unfold GovernanceKernel._default_invariants.
    repeat (apply Forall_cons; split; [unfold returns; eexists; reflexivity|]).
    apply Forall_nil_2. }
  split; [exact Hreturn|].
  destruct (@verify_reports_the_pairing_invariants plain_runtime
              (GovernanceKernel.init None true true)
              [("decision_maker", VStr "board")]
              [("makes_decision", VBool true); ("affects_group", VStr "tenants")]
              None plain_env _ Hwf eq_refl Hencode Hreturn)
    as (k' & r & Hverify & Hcmp & Hmap & Hexp).
  exists k', r. split; [exact Hverify|]. split; [|split].
  - apply Hcmp. split; reflexivity.
  - apply Hexp. repeat split; reflexivity.
  - intros Hlisted. apply Hmap in Hlisted as [Hmakes _]. discriminate Hmakes.
Defined.

Lemma AIT1_ranks_unknown_levels_with_none_witness :
  hashable (get_or [("authority_level", VStr "none");
                    ("requires_authority", VStr "supervisor")]
              "authority_level" (VStr "none")) = true ∧
  hashable (get_or [("authority_level", VStr "none");
                    ("requires_authority", VStr "supervisor")]
              "requires_authority" (VStr "none")) = true ∧
  Invariants.AIT1_check [("authority_level", VStr "none");
                         ("requires_authority", VStr "supervisor")]
  = Ok (VBool true).
Proof.
  destruct (AIT1_ranks_unknown_levels_with_none
              [("authority_level", VStr "none");
               ("requires_authority", VStr "supervisor")] eq_refl eq_refl)
    as [Hgranted _].
  split; [reflexivity|]. split; [reflexivity|].
  apply Hgranted. intros s Hs. injection Hs as <-.
  split; [discriminate|]. split; discriminate.
Defined.

Lemma sanitize_is_idempotent_witness :
  NoDup (keys [("user", VStr "ann"); ("Password", VStr "hunter2")]) ∧
  AuditLogger._sanitize
    (AuditLogger._sanitize [("user", VStr "ann"); ("Password", VStr "hunter2")])
  = AuditLogger._sanitize [("user", VStr "ann"); ("Password", VStr "hunter2")].
Proof.
  assert (NoDup (keys [("user", VStr "ann"); ("Password", VStr "hunter2")]))
    as Hkeys by (apply (bool_decide_unpack _); vm_compute; exact I).
  split; [exact Hkeys|].
  exact (sanitize_is_idempotent _ Hkeys).
Defined.

Lemma verify_chain_accepts_a_truncated_log_witness :
  @AuditLogger.verify_chain plain_runtime
    (@log_all plain_runtime (AuditLogger.init None) two_calls) = Ok true ∧
  @AuditLogger.verify_chain plain_runtime
    (with_logs (@log_all plain_runtime (AuditLogger.init None) two_calls)
       (take 1 (AuditLogger.logs
                  (@log_all plain_runtime (AuditLogger.init None) two_calls))))
  = Ok true.
Proof.
  assert (@AuditLogger.verify_chain plain_runtime
            (@log_all plain_runtime (AuditLogger.init None) two_calls) = Ok true)
    as Hchain by (vm_compute; reflexivity).
  split; [exact Hchain|].
  exact (@verify_chain_accepts_a_truncated_log plain_runtime _ 1%nat Hchain).
Defined.

Lemma verify_chain_rejects_a_beheaded_log_witness :
  @AuditLogger.verify_chain plain_runtime
    (@log_all plain_runtime (AuditLogger.init None) two_calls) = Ok true ∧
  (0 < 1 < length (AuditLogger.logs
                     (@log_all plain_runtime (AuditLogger.init None) two_calls)))%nat ∧
  @AuditLogger.verify_chain plain_runtime
    (with_logs (@log_all plain_runtime (AuditLogger.init None) two_calls)
       (drop 1 (AuditLogger.logs
                  (@log_all plain_runtime (AuditLogger.init None) two_calls))))
  = Ok false.
Proof.
  assert (@AuditLogger.verify_chain plain_runtime
            (@log_all plain_runtime (AuditLogger.init None) two_calls) = Ok true)
    as Hchain by (vm_compute; reflexivity).
  assert (0 < 1 < length (AuditLogger.logs
                            (@log_all plain_runtime (AuditLogger.init None)
                               two_calls)))%nat as Hinside.
  { assert (length (AuditLogger.logs
                      (@log_all plain_runtime (AuditLogger.init None) two_calls))
            = 2%nat) as -> by (vm_compute; reflexivity).
    lia. }
  split; [exact Hchain|]. split; [exact Hinside|].
  exact (@verify_chain_rejects_a_beheaded_log plain_runtime _ 1%nat Hchain
           Hinside).
Defined.

Lemma verify_chain_accepts_a_rehashed_last_entry_witness :
  AuditLogger.logs (@log_all plain_runtime (AuditLogger.init None)
                      (take 1 two_calls)) = ([] ++ [first_entry])%list ∧
  @AuditLogger.verify_chain plain_runtime
    (@log_all plain_runtime (AuditLogger.init None) (take 1 two_calls))
  = Ok true ∧
  dict_get "previous_hash" rehashed_entry = dict_get "previous_hash" first_entry ∧
  dict_get "hash" rehashed_entry
  = Some (VStr (@AuditLogger._calculate_hash plain_runtime rehashed_entry)) ∧
  dict_get "result" rehashed_entry = Some flipped_outcome ∧
  dict_get "result" rehashed_entry ≠ dict_get "result" first_entry ∧
  @AuditLogger.verify_chain plain_runtime
    (with_logs (@log_all plain_runtime (AuditLogger.init None) (take 1 two_calls))
       ([] ++ [rehashed_entry])) = Ok true.
Proof.
  assert (AuditLogger.logs (@log_all plain_runtime (AuditLogger.init None)
                              (take 1 two_calls)) = ([] ++ [first_entry])%list)
    as Hlogs by (vm_compute; reflexivity).
  assert (@AuditLogger.verify_chain plain_runtime
            (@log_all plain_runtime (AuditLogger.init None) (take 1 two_calls))
          = Ok true) as Hchain by (vm_compute; reflexivity).
  assert (dict_get "previous_hash" rehashed_entry
          = dict_get "previous_hash" first_entry) as Hprevious
    by (vm_compute; reflexivity).
  assert (dict_get "hash" rehashed_entry
          = Some (VStr (@AuditLogger._calculate_hash plain_runtime
                          rehashed_entry))) as Hhash
    by (vm_compute; reflexivity).
  split; [exact Hlogs|]. split; [exact Hchain|]. split; [exact Hprevious|].
  split; [exact Hhash|]. split; [vm_compute; reflexivity|].
  split; [vm_compute; discriminate|].
  exact (@verify_chain_accepts_a_rehashed_last_entry plain_runtime _ []
           first_entry rehashed_entry Hlogs Hchain Hprevious Hhash).
Defined.

Lemma get_logs_returns_matching_entries_of_the_log_witness :
  ∃ found,
    @AuditLogger.get_logs plain_datetimes
      (@log_all plain_runtime (AuditLogger.init None) two_calls)
      (Some "2024-01-01T00:00:01") None false true = Ok found ∧
    length found = 1%nat ∧
    found `sublist_of` AuditLogger.logs
                         (@log_all plain_runtime (AuditLogger.init None)
                            two_calls).
Proof.
  assert (∃ found,
            @AuditLogger.get_logs plain_datetimes
              (@log_all plain_runtime (AuditLogger.init None) two_calls)
              (Some "2024-01-01T00:00:01") None false true = Ok found ∧
            length found = 1%nat) as (found & Hget & Hlength)
    by (vm_compute; eexists; split; reflexivity).
  destruct (@get_logs_returns_matching_entries_of_the_log plain_datetimes
              (@log_all plain_runtime (AuditLogger.init None) two_calls)
              (Some "2024-01-01T00:00:01") None false true found Hget)
    as [Hsub _].
  exists found. split; [exact Hget|]. split; [exact Hlength | exact Hsub].
Defined.

